(** * Editor commands of the OmniSharp extension: [src/features/commands.ts]

    A shallow embedding of the command catalog builders, the action
    executors, the last-command slot and the tasks.json scaffolding, and
    the properties established about them. *)

From Stdlib Require Import List String Ascii Bool Arith Lia.
From Stdlib Require DecimalString.
Import ListNotations.
Open Scope list_scope.
Open Scope string_scope.

Set Implicit Arguments.

(** ** JavaScript values used by the module *)

(** A string-typed value that may be absent ([undefined] or [null]). *)
Definition jsstring := option string.

(** Truthiness of such a value: absent and the empty string are falsy. *)
Definition truthy (v : jsstring) : bool :=
  match v with
  | Some s => negb (s =? "")
  | None => false
  end.

(** [a || b] where [a] may be absent and [b] is a string. *)
Definition js_or (a : jsstring) (b : string) : string :=
  match a with
  | Some s => if s =? "" then b else s
  | None => b
  end.

(** [Array.prototype.push] and [Array.prototype.forEach], with the loop
    state passed explicitly. *)
Definition push {A} (xs : list A) (x : A) : list A := (xs ++ [x])%list.

Definition forEach {A S} (xs : list A) (body : A -> S -> S) (s : S) : S :=
  fold_left (fun acc x => body x acc) xs s.

(** A JS object used as a string-keyed map, kept as its own enumerable
    properties in iteration order; [Object.keys] lists the keys in that
    order. *)
Definition jsobject (V : Type) := list (string * V).

Definition Object_keys {V} (o : jsobject V) : list string := map fst o.

(** ** The [path] module of the host platform

    [commands.ts] imports Node's [path]; which implementation it gets
    (posix or win32) depends on the platform, so the module is an
    interface here. *)
Class PathModule := {
  path_basename : string -> string;
  path_dirname : string -> string;
  path_join : string -> string -> string
}.

(** The posix implementation of that interface, following Node's
    [path.posix] ([basename] without extension argument, [dirname], and
    [join] of two segments), for running the code on concrete inputs. *)
Module Posix.

Definition slash : ascii := "/"%char.

Definition is_slash_at (path : string) (i : nat) : bool :=
  match get i path with
  | Some c => Ascii.eqb c slash
  | None => false
  end.

(** The backwards scan of [dirname], over indices [i .. 1]. *)
Fixpoint dirname_scan (path : string) (i : nat) (matchedSlash : bool)
  : option nat :=
  match i with
  | 0 => None
  | S i' =>
      if is_slash_at path i then
        if negb matchedSlash then Some i
        else dirname_scan path i' matchedSlash
      else dirname_scan path i' false
  end.

Definition dirname (path : string) : string :=
  if Nat.eqb (String.length path) 0 then "."
  else
    let hasRoot := is_slash_at path 0 in
    match dirname_scan path (String.length path - 1) true with
    | None => if hasRoot then "/" else "."
    | Some e => if hasRoot && Nat.eqb e 1 then "//" else substring 0 e path
    end.

(** The backwards scan of [basename], over indices [n-1 .. 0]; returns
    [start] and [end] ([None] for the initial [-1]). *)
Fixpoint basename_scan (path : string) (n : nat) (matchedSlash : bool)
         (e : option nat) : nat * option nat :=
  match n with
  | 0 => (0, e)
  | S i =>
      if is_slash_at path i then
        if negb matchedSlash then (i + 1, e)
        else basename_scan path i matchedSlash e
      else
        match e with
        | None => basename_scan path i false (Some (i + 1))
        | Some _ => basename_scan path i matchedSlash e
        end
  end.

Definition basename (path : string) : string :=
  match basename_scan path (String.length path) true None with
  | (_, None) => ""
  | (start, Some e) => substring start (e - start) path
  end.

(** Splitting at separators, for [normalize]. *)
Fixpoint split_slash (path : string) : list string :=
  match path with
  | EmptyString => [""]
  | String c rest =>
      if Ascii.eqb c slash then "" :: split_slash rest
      else
        match split_slash rest with
        | seg :: segs => String c seg :: segs
        | [] => [String c ""]
        end
  end.

(** Resolution of [.] and [..] segments; [acc] is the result so far,
    last segment first. *)
Fixpoint normalize_segments (allowAboveRoot : bool) (segs : list string)
         (acc : list string) : list string :=
  match segs with
  | [] => rev acc
  | seg :: rest =>
      if (seg =? "") || (seg =? ".") then
        normalize_segments allowAboveRoot rest acc
      else if seg =? ".." then
        match acc with
        | top :: acc' =>
            if top =? ".." then
              normalize_segments allowAboveRoot rest
                (if allowAboveRoot then ".." :: acc else acc)
            else normalize_segments allowAboveRoot rest acc'
        | [] =>
            normalize_segments allowAboveRoot rest
              (if allowAboveRoot then [".."] else [])
        end
      else normalize_segments allowAboveRoot rest (seg :: acc)
  end.

Definition normalize (path : string) : string :=
  if Nat.eqb (String.length path) 0 then "."
  else
    let isAbsolute := is_slash_at path 0 in
    let trailingSeparator := is_slash_at path (String.length path - 1) in
    let body :=
      String.concat "/"
        (normalize_segments (negb isAbsolute) (split_slash path) []) in
    if Nat.eqb (String.length body) 0 then
      if isAbsolute then "/" else if trailingSeparator then "./" else "."
    else
      let body := if trailingSeparator then body ++ "/" else body in
      if isAbsolute then "/" ++ body else body.

Definition join (a b : string) : string :=
  match Nat.eqb (String.length a) 0, Nat.eqb (String.length b) 0 with
  | true, true => "."
  | true, false => normalize b
  | false, true => normalize a
  | false, false => normalize (a ++ "/" ++ b)
  end.

Definition module : PathModule :=
  {| path_basename := basename; path_dirname := dirname; path_join := join |}.

End Posix.

(** ** Server protocol

    Modelled from the spec: the project snapshot
    [proto.WorkspaceInformationResponse], whose declaration ([../protocol])
    is not among the sources: an ordered collection of projects, each with
    an optional name, a path and a mapping from command names to metadata,
    and a runtime path. The records have the fields [commands.ts] reads,
    under the names it reads them by. *)

Record DnxProject := {
  Path : string;
  Name : jsstring;
  Commands : jsobject string
}.

Record DnxWorkspaceInformation := {
  RuntimePath : string;
  Projects : list DnxProject
}.

Record WorkspaceInformationResponse := {
  Dnx : DnxWorkspaceInformation
}.

(** ** Commands

    [execute] is a closure; it is represented by the variables it captures,
    and run by [call_execute] below. *)
Inductive Closure :=
| DnxExecute (info : WorkspaceInformationResponse) (project : DnxProject)
             (key : string)
| DnuRestore (info : WorkspaceInformationResponse) (project : DnxProject).

Record Command := {
  label : string;
  description : string;
  execute : Closure
}.

(** An entry of the generic catalog, by its closure. *)
Definition dnx_entry (c : Command) : Prop :=
  exists info project key, execute c = DnxExecute info project key.

(** One call of [runInTerminal(command, args, {cwd, env})]. *)
Record TerminalCall := {
  tc_command : string;
  tc_args : list string;
  tc_cwd : string;
  tc_env : option (list (string * string))
}.

(** How a promise settles. *)
Inductive Outcome (A : Type) :=
| Resolved (a : A)
| Rejected (reason : string).
Arguments Resolved {A} a.
Arguments Rejected {A} reason.

Inductive PathKind := File | Directory.

(** ** The collaborators the module calls

    The server proxy, the picker, the terminal runner and the path helpers
    are outside [commands.ts]; what they answer is a parameter of every
    operation. *)
Record Host := {
  (** [server.isRunning()] *)
  isRunning : bool;
  (** [server.getSolutionPathOrFolder()] *)
  getSolutionPathOrFolder : jsstring;
  (** [server.makeRequest(proto.Projects)] *)
  makeRequest_Projects : Outcome WorkspaceInformationResponse;
  (** [vscode.window.showQuickPick]: index of the chosen item, if any *)
  showQuickPick : list Command -> option nat;
  (** [runInTerminal] *)
  runInTerminal : TerminalCall -> Outcome unit;
  (** [pathHelpers.getPathKind] *)
  getPathKind : string -> PathKind;
  (** [pathHelpers.mkdir]: whether the directory could be created *)
  mkdir : string -> bool
}.

(** Effects, in the order they happen. *)
Inductive Event :=
| EvRequestProjects
| EvShowQuickPick (items : list Command)
| EvAssignLastCommand (c : Command)
| EvRunInTerminal (call : TerminalCall)
| EvShowInformationMessage (message : string)
| EvMkdir (directoryPath : string)
| EvPipe (fromPath toPath : string).

(** Module-level state ([lastCommand]), the paths that exist on disk, and
    the effects performed so far. *)
Record World := {
  lastCommand : option Command;
  files : list string;
  trace : list Event
}.

(** A pending computation over the world that resolves or rejects. *)
Definition Promise (A : Type) := World -> Outcome A * World.

Definition resolve {A} (a : A) : Promise A := fun w => (Resolved a, w).

Definition reject {A} (reason : string) : Promise A :=
  fun w => (Rejected reason, w).

(** A promise that is already settled. *)
Definition settle {A} (o : Outcome A) : Promise A := fun w => (o, w).

(** [p.then(k)] *)
Definition andThen {A B} (p : Promise A) (k : A -> Promise B) : Promise B :=
  fun w =>
    match p w with
    | (Resolved a, w') => k a w'
    | (Rejected r, w') => (Rejected r, w')
    end.

Notation "x <- p ;; k" := (andThen p (fun x => k))
  (at level 61, p at next level, right associativity).
Notation "p ;;; k" := (andThen p (fun _ => k))
  (at level 61, right associativity).

(** A promise whose settlement nobody observes: its effects happen, the
    caller continues with [undefined]. *)
Definition detached {A} (p : Promise A) : Promise unit :=
  fun w => (Resolved tt, snd (p w)).

Definition emit (e : Event) : Promise unit :=
  fun w =>
    (Resolved tt,
     {| lastCommand := lastCommand w; files := files w;
        trace := (trace w ++ [e])%list |}).

Definition assignLastCommand (c : Command) : Promise unit :=
  fun w =>
    (Resolved tt,
     {| lastCommand := Some c; files := files w;
        trace := (trace w ++ [EvAssignLastCommand c])%list |}).

Definition createFile (p : string) : Promise unit :=
  fun w =>
    (Resolved tt,
     {| lastCommand := lastCommand w; files := p :: files w;
        trace := trace w |}).

(** Modelled from the spec: the existence check of the path helpers
    ([pathHelpers.exists], whose file is not among the sources), answered
    from the paths on disk in [w]. *)
Definition on_disk (w : World) (p : string) : bool :=
  existsb (String.eqb p) (files w).

(** [pathHelpers.exists(p)] *)
Definition path_exists (p : string) : Promise bool :=
  fun w => (Resolved (on_disk w p), w).

(** [sub] occurs in [s]. *)
Definition contains (s sub : string) : Prop :=
  exists pre post, s = pre ++ sub ++ post.

(** A computation that leaves the [lastCommand] slot as it found it. *)
Definition keeps_lastCommand {A} (p : Promise A) : Prop :=
  forall w, lastCommand (snd (p w)) = lastCommand w.

(** The world after the events [evs], nothing else changed. *)
Definition after (w : World) (evs : list Event) : World :=
  {| lastCommand := lastCommand w; files := files w;
     trace := (trace w ++ evs)%list |}.

(** ** The regular expressions of the module *)

(** The character class [[1-6]]. *)
Definition is_digit_1_6 (c : ascii) : bool :=
  Nat.leb 49 (nat_of_ascii c) && Nat.leb (nat_of_ascii c) 54.

(** [-beta[1-6]] matched at the start of [s]. *)
Definition beta_at (s : string) : bool :=
  prefix "-beta" s &&
  match get 5 s with
  | Some d => is_digit_1_6 d
  | None => false
  end.

(** [/-beta[1-6]/.test(s)]: the pattern is not anchored, every start
    position is tried. *)
Fixpoint test_beta_1_6 (s : string) : bool :=
  beta_at s ||
  match s with
  | EmptyString => false
  | String _ rest => test_beta_1_6 rest
  end.

(** What the pattern finds, stated on the text of the path: [-beta]
    immediately followed by one of the digits 1 to 6, at any place in the
    path and with anything after the digit. This is a condition on the
    text, not on the version of the runtime: [-beta10] and a folder
    [tools-beta3] satisfy it. *)
Definition has_beta_digit_1_to_6 (runtimePath : string) : Prop :=
  exists pre d post,
    runtimePath = pre ++ "-beta" ++ String d post /\
    In d ["1"; "2"; "3"; "4"; "5"; "6"]%char.

(** A decimal digit. *)
Definition is_digit (c : ascii) : bool :=
  Nat.leb 48 (nat_of_ascii c) && Nat.leb (nat_of_ascii c) 57.

(** The number spelled by the digits at the start of [s], if any. *)
Fixpoint read_number (s : string) (acc : option nat) : option nat :=
  match s with
  | EmptyString => acc
  | String c rest =>
      if is_digit c then
        read_number rest
          (Some (10 * match acc with Some n => n | None => 0 end
                 + (nat_of_ascii c - 48)))
      else acc
  end.

(** The beta version a runtime path names, in the words of the
    specification: the decimal number spelled by the digits that directly
    follow [-beta], taken at the last place of the path where digits
    follow [-beta] (the runtime's own name ends the path). *)
Fixpoint beta_version (s : string) : option nat :=
  match s with
  | EmptyString => None
  | String _ rest =>
      match beta_version rest with
      | Some n => Some n
      | None =>
          if prefix "-beta" s
          then read_number (substring 5 (String.length s) s) None
          else None
      end
  end.

(** A runtime of beta version 1 through 6. *)
Definition names_beta_1_to_6 (runtimePath : string) : bool :=
  match beta_version runtimePath with
  | Some n => Nat.leb 1 n && Nat.leb n 6
  | None => false
  end.

(** [/^win/.test(s)] *)
Definition test_win (s : string) : bool := prefix "win" s.

Section Commands.

Context {path : PathModule}.

(** [process.platform] *)
Variable platform : string.

Variable host : Host.

Definition isWin : bool := test_win platform.

(** *** Collaborator calls as promises *)

Definition server_makeRequest_Projects : Promise WorkspaceInformationResponse :=
  emit EvRequestProjects ;;;
  settle (makeRequest_Projects host).

Definition window_showQuickPick (items : list Command)
  : Promise (option Command) :=
  emit (EvShowQuickPick items) ;;;
  resolve match showQuickPick host items with
          | Some i => nth_error items i
          | None => None
          end.

Definition window_showInformationMessage (message : string) : Promise unit :=
  emit (EvShowInformationMessage message).

Definition run_in_terminal (call : TerminalCall) : Promise unit :=
  emit (EvRunInTerminal call) ;;;
  settle (runInTerminal host call).

(** Modelled from the spec: [pathHelpers.getPathKind], the classification
    of a path as file or directory, answered by the host. The promise is
    taken as fulfilled. *)
Definition pathHelpers_getPathKind (p : string) : Promise PathKind :=
  resolve (getPathKind host p).

(** Modelled from the spec: [pathHelpers.mkdir], directory creation; the
    host says whether it succeeds, and then the directory is on disk. The
    promise is taken as fulfilled, with [true] or [false]. *)
Definition pathHelpers_mkdir (p : string) : Promise bool :=
  emit (EvMkdir p) ;;;
  if mkdir host p then createFile p ;;; resolve true else resolve false.

(** *** [execute] of a generic entry: the call it makes *)
Definition dnx_call (info : WorkspaceInformationResponse)
           (project : DnxProject) (key : string) : TerminalCall :=
  let command := path_join (RuntimePath (Dnx info)) "bin/dnx" in
  let args := [key] in
  let args :=
    if test_beta_1_6 (RuntimePath (Dnx info)) then "." :: args else args in
  let command := if isWin then command ++ ".exe" else command in
  {| tc_command := command; tc_args := args;
     tc_cwd := path_dirname (Path project); tc_env := Some [] |}.

(** *** [execute] of a restore entry: the call it makes *)
Definition dnu_restore_call (info : WorkspaceInformationResponse)
           (project : DnxProject) : TerminalCall :=
  let command := path_join (RuntimePath (Dnx info)) "bin/dnu" in
  let command := if isWin then command ++ ".cmd" else command in
  {| tc_command := command; tc_args := ["restore"];
     tc_cwd := path_dirname (Path project); tc_env := None |}.

(** [this.execute()] *)
Definition call_execute (this : Command) : Promise unit :=
  match execute this with
  | DnxExecute info project key =>
      assignLastCommand this ;;;
      run_in_terminal (dnx_call info project key)
  | DnuRestore info project =>
      run_in_terminal (dnu_restore_call info project)
  end.

(** *** The catalogs *)

(** The name a label shows for a project:
    [project.Name || path.basename(project.Path)]. *)
Definition display_name (project : DnxProject) : string :=
  js_or (Name project) (path_basename (Path project)).

Definition dnx_command (info : WorkspaceInformationResponse)
           (project : DnxProject) (key : string) : Command :=
  {| label := "dnx " ++ key ++ " - (" ++
              js_or (Name project) (path_basename (Path project)) ++ ")";
     description := path_dirname (Path project);
     execute := DnxExecute info project key |}.

(** The [commands] array built by [dnxExecuteCommand]. *)
Definition dnx_commands (info : WorkspaceInformationResponse) : list Command :=
  forEach (Projects (Dnx info)) (fun project commands =>
    forEach (Object_keys (Commands project)) (fun key commands =>
      push commands (dnx_command info project key)) commands) [].

Definition dnu_restore_command (info : WorkspaceInformationResponse)
           (project : DnxProject) : Command :=
  {| label := "dnu restore - (" ++
              js_or (Name project) (path_basename (Path project)) ++ ")";
     description := path_dirname (Path project);
     execute := DnuRestore info project |}.

(** The [commands] array built by [dnxRestoreForAll]. *)
Definition dnu_restore_commands (info : WorkspaceInformationResponse)
  : list Command :=
  forEach (Projects (Dnx info)) (fun project commands =>
    push commands (dnu_restore_command info project)) [].

(** The tail shared by both pickers. *)
Definition pick_and_execute (commands : list Command) : Promise unit :=
  command <- window_showQuickPick commands ;;
  match command with
  | Some c => call_execute c
  | None => resolve tt
  end.

(** *** The operations *)

Definition dnxExecuteCommand : Promise unit :=
  if negb (isRunning host) then reject "OmniSharp server is not running."
  else
    info <- server_makeRequest_Projects ;;
    pick_and_execute (dnx_commands info).

Definition dnxExecuteLastCommand : Promise unit :=
  fun w =>
    match lastCommand w with
    | Some c => detached (call_execute c) w
    | None => detached dnxExecuteCommand w
    end.

Definition dnxRestoreForAll : Promise unit :=
  if negb (isRunning host) then reject "OmniSharp server is not running."
  else
    info <- server_makeRequest_Projects ;;
    pick_and_execute (dnu_restore_commands info).

(** The rejection reason of [dnxRestoreForProject]. *)
Definition not_found_message (fileName : string) : string :=
  "Failed to execute restore, try to run 'dnu restore' manually for "
  ++ fileName ++ ".".

(** The [for ... of] loop of [dnxRestoreForProject] with the rejection
    that follows it. *)
Fixpoint restore_first_match (info : WorkspaceInformationResponse)
         (fileName : string) (projects : list DnxProject) : Promise unit :=
  match projects with
  | [] => reject (not_found_message fileName)
  | project :: rest =>
      if Path project =? fileName then
        run_in_terminal (dnu_restore_call info project)
      else restore_first_match info fileName rest
  end.

Definition dnxRestoreForProject (fileName : string) : Promise unit :=
  info <- server_makeRequest_Projects ;;
  restore_first_match info fileName (Projects (Dnx info)).

Definition dotnetRestore : Promise unit :=
  if negb (isRunning host) then reject "OmniSharp server is not running."
  else
    match getSolutionPathOrFolder host with
    | None => reject "No solution or folder open."
    | Some solutionPathOrFolder =>
        if solutionPathOrFolder =? "" then reject "No solution or folder open."
        else
          detached
            (solutionDirectory <-
               (kind <- pathHelpers_getPathKind solutionPathOrFolder ;;
                match kind with
                | File => resolve (path_dirname solutionPathOrFolder)
                | Directory => resolve solutionPathOrFolder
                end) ;;
             run_in_terminal
               {| tc_command := "dotnet"; tc_args := ["restore"];
                  tc_cwd := solutionPathOrFolder; tc_env := None |})
    end.

Definition ensureDirectoryCreated (directoryPath : string) : Promise bool :=
  e <- path_exists directoryPath ;;
  if e then resolve true else pathHelpers_mkdir directoryPath.

Definition getExpectedVsCodeFolderPath (solutionPathOrFolder : string)
  : Promise string :=
  kind <- pathHelpers_getPathKind solutionPathOrFolder ;;
  match kind with
  | File => resolve (path_join (path_dirname solutionPathOrFolder) ".vscode")
  | Directory => resolve (path_join solutionPathOrFolder ".vscode")
  end.

(** The folder and the file [addTasksJson] aims at, for a solution path
    or folder [p]. *)
Definition vscode_folder (p : string) : string :=
  match getPathKind host p with
  | File => path_join (path_dirname p) ".vscode"
  | Directory => path_join p ".vscode"
  end.

Definition tasks_json_path (p : string) : string :=
  path_join (vscode_folder p) "tasks.json".

Definition template_path (extensionPath : string) : string :=
  path_join extensionPath "template-tasks.json".

(** [oldFile.pipe(newFile)] on the two streams. The source starts the
    copy and goes on without waiting for it; the disk model enters the
    target at this point. *)
Definition pipe_streams (fromPath toPath : string) : Promise unit :=
  emit (EvPipe fromPath toPath) ;;; createFile toPath.

Definition addTasksJson (extensionPath : string) : Promise string :=
  if negb (isRunning host) then reject "OmniSharp is not running."
  else
    match getSolutionPathOrFolder host with
    | None => reject "No solution or folder open."
    | Some solutionPathOrFolder =>
        if solutionPathOrFolder =? "" then reject "No solution or folder open."
        else
          vscodeFolderPath <- getExpectedVsCodeFolderPath solutionPathOrFolder ;;
          let tasksJsonPath := path_join vscodeFolderPath "tasks.json" in
          e <- path_exists tasksJsonPath ;;
          if e then
            window_showInformationMessage (tasksJsonPath ++ " already exists.") ;;;
            resolve tasksJsonPath
          else
            let templatePath := path_join extensionPath "template-tasks.json" in
            e <- path_exists templatePath ;;
            if negb e then
              reject "Could not find template-tasks.json file in extension."
            else
              ok <- ensureDirectoryCreated vscodeFolderPath ;;
              if ok then
                pipe_streams templatePath tasksJsonPath ;;;
                resolve tasksJsonPath
              else
                reject ("Could not create " ++ vscodeFolderPath ++ " directory.")
    end.

End Commands.

(** ** [dotnetRestore] when the path helper may fail

    [pathHelpers.getPathKind] returns a promise. [dotnetRestore] above
    takes the promise as fulfilled with the host's answer; here the same
    function is given over a promise that may also reject. *)
Section FalliblePathKind.

Context {path : PathModule}.

(** How the promise of [pathHelpers.getPathKind(p)] settles. *)
Variable getPathKindPromise : string -> Outcome PathKind.

Variable host : Host.

Definition dotnetRestore_over : Promise unit :=
  if negb (isRunning host) then reject "OmniSharp server is not running."
  else
    match getSolutionPathOrFolder host with
    | None => reject "No solution or folder open."
    | Some solutionPathOrFolder =>
        if solutionPathOrFolder =? "" then reject "No solution or folder open."
        else
          detached
            (solutionDirectory <-
               (kind <- settle (getPathKindPromise solutionPathOrFolder) ;;
                match kind with
                | File => resolve (path_dirname solutionPathOrFolder)
                | Directory => resolve solutionPathOrFolder
                end) ;;
             run_in_terminal host
               {| tc_command := "dotnet"; tc_args := ["restore"];
                  tc_cwd := solutionPathOrFolder; tc_env := None |})
    end.

End FalliblePathKind.

(** ** Sample inputs *)

Module Sample.

Definition web_a : DnxProject :=
  {| Path := "/src/a/Web/project.json"; Name := Some "Web";
     Commands := [("web", "Microsoft.AspNet.Hosting"); ("test", "xunit.runner.dnx")] |}.

Definition web_b : DnxProject :=
  {| Path := "/src/b/Web/project.json"; Name := Some "Web";
     Commands := [("web", "Microsoft.AspNet.Hosting")] |}.

Definition api : DnxProject :=
  {| Path := "/src/Api/project.json"; Name := Some "Api";
     Commands := [("web", "Microsoft.AspNet.Hosting")] |}.

(** Two projects of the same name in different folders. *)
Definition same_names : WorkspaceInformationResponse :=
  {| Dnx := {| RuntimePath := "/home/dev/.dnx/runtimes/dnx-mono.1.0.0-beta7";
               Projects := [web_a; web_b] |} |}.

Definition snapshot : WorkspaceInformationResponse :=
  {| Dnx := {| RuntimePath := "/home/dev/.dnx/runtimes/dnx-mono.1.0.0-beta7";
               Projects := [web_a; api] |} |}.

(** A started server on the solution file [/src/app.sln]; the terminal
    run fails and directories cannot be created. *)
Definition started : Host :=
  {| isRunning := true;
     getSolutionPathOrFolder := Some "/src/app.sln";
     makeRequest_Projects := Resolved snapshot;
     showQuickPick := fun _ => Some 0;
     runInTerminal := fun _ => Rejected "spawn failed";
     getPathKind := fun p => if p =? "/src/app.sln" then File else Directory;
     mkdir := fun _ => false |}.

(** A server that is not running; its requests are refused. *)
Definition stopped : Host :=
  {| isRunning := false;
     getSolutionPathOrFolder := Some "/src/app.sln";
     makeRequest_Projects := Rejected "server has been stopped or not started";
     showQuickPick := fun _ => Some 0;
     runInTerminal := fun _ => Resolved tt;
     getPathKind := fun p => if p =? "/src/app.sln" then File else Directory;
     mkdir := fun _ => true |}.

Definition fresh : World :=
  {| lastCommand := None; files := ["/ext/template-tasks.json"]; trace := [] |}.

Definition scaffolded : World :=
  {| lastCommand := None;
     files := ["/src/.vscode/tasks.json"; "/src/.vscode";
               "/ext/template-tasks.json"];
     trace := [] |}.

End Sample.

(** Runtime paths with pre-release markers. *)
Module Prerelease.

(** A beta7 runtime installed below a folder named [tools-beta3]. *)
Definition under_beta3_folder : WorkspaceInformationResponse :=
  {| Dnx := {| RuntimePath := "/opt/tools-beta3/runtimes/dnx-mono.1.0.0-beta7";
               Projects := [Sample.web_a] |} |}.

(** A runtime of beta version 10. *)
Definition beta10 : WorkspaceInformationResponse :=
  {| Dnx := {| RuntimePath := "/home/dev/.dnx/runtimes/dnx-mono.1.0.0-beta10";
               Projects := [Sample.web_a] |} |}.

End Prerelease.

(** Further sample inputs. *)
Module Scenario.

(** A started server whose user dismisses every picker. *)
Definition dismissing : Host :=
  {| isRunning := true;
     getSolutionPathOrFolder := Some "/src";
     makeRequest_Projects := Resolved Sample.snapshot;
     showQuickPick := fun _ => None;
     runInTerminal := fun _ => Resolved tt;
     getPathKind := fun _ => Directory;
     mkdir := fun _ => true |}.

(** A started server whose requests time out. *)
Definition failing : Host :=
  {| isRunning := true;
     getSolutionPathOrFolder := Some "/src";
     makeRequest_Projects := Rejected "request timed out";
     showQuickPick := fun _ => Some 0;
     runInTerminal := fun _ => Resolved tt;
     getPathKind := fun _ => Directory;
     mkdir := fun _ => true |}.

(** A started server on a folder without projects. *)
Definition no_projects : WorkspaceInformationResponse :=
  {| Dnx := {| RuntimePath := "/home/dev/.dnx/runtimes/dnx-mono.1.0.0-beta7";
               Projects := [] |} |}.

Definition idle : Host :=
  {| isRunning := true;
     getSolutionPathOrFolder := Some "/src";
     makeRequest_Projects := Resolved no_projects;
     showQuickPick := fun _ => Some 0;
     runInTerminal := fun _ => Resolved tt;
     getPathKind := fun _ => Directory;
     mkdir := fun _ => true |}.

(** The world after [web] of the first sample project was executed. *)
Definition executed : World :=
  {| lastCommand :=
       Some (dnx_command (path := Posix.module) Sample.snapshot Sample.web_a "web");
     files := [];
     trace := [] |}.

End Scenario.

(** ** Launch targets

    [pickProjectAndStart] touches neither [lastCommand] nor the disk; it is
    given with its own collaborators and its own effects. *)

Module Launch.

(** Modelled from the spec: a candidate project root as the launch-target
    finder reports it ([../launchTargetFinder] is not among the sources),
    with the fields [commands.ts] reads. *)
Record Uri := {
  fsPath : string
}.

Record LaunchTarget := {
  label : string;
  description : string;
  target : Uri
}.

Record Workbench := {
  (** [findLaunchTargets()] *)
  findLaunchTargets : Outcome (list LaunchTarget);
  (** [vscode.window.showQuickPick]: index of the chosen item, if any *)
  showQuickPick : list LaunchTarget -> option nat;
  (** [server.restart(path)] *)
  restart : string -> Outcome unit
}.

Inductive Event :=
| EvFindLaunchTargets
| EvShowQuickPick (items : list LaunchTarget) (matchOnDescription : bool)
                  (placeHolder : string)
| EvRestart (solutionPath : string).

(** A length interpolated into a template literal. *)
Definition number_to_string (n : nat) : string :=
  DecimalString.NilEmpty.string_of_uint (Nat.to_uint n).

(** The check mark U+2713 and a space. *)
Definition check_mark : string := "✓ ".

(** The body of the [for ... of] loop: the assignment to [target.label]
    when the target is the current one. *)
Definition mark_if_current (currentPath : string) (tgt : LaunchTarget)
  : LaunchTarget :=
  if fsPath (target tgt) =? currentPath then
    {| label := check_mark ++ label tgt;
       description := description tgt;
       target := target tgt |}
  else tgt.

(** The targets after the [if (currentPath)] block. *)
Definition mark_current (currentPath : jsstring) (targets : list LaunchTarget)
  : list LaunchTarget :=
  match currentPath with
  | Some currentPath =>
      if currentPath =? "" then targets
      else map (mark_if_current currentPath) targets
  | None => targets
  end.

Definition placeHolder (targets : list LaunchTarget) : string :=
  "Select 1 of " ++ number_to_string (List.length targets) ++ " projects".

(** The result of the returned promise and the effects in order. *)
Definition pickProjectAndStart (host : Host) (wb : Workbench)
  : Outcome unit * list Event :=
  match findLaunchTargets wb with
  | Rejected reason => (Rejected reason, [EvFindLaunchTargets])
  | Resolved targets =>
      let currentPath := getSolutionPathOrFolder host in
      let targets := mark_current currentPath targets in
      let shown := EvShowQuickPick targets true (placeHolder targets) in
      match
        match showQuickPick wb targets with
        | Some i => nth_error targets i
        | None => None
        end
      with
      | Some tgt =>
          (restart wb (fsPath (target tgt)),
           [EvFindLaunchTargets; shown; EvRestart (fsPath (target tgt))])
      | None => (Resolved tt, [EvFindLaunchTargets; shown])
      end
  end.

(** Sample inputs. *)
Definition app_target : LaunchTarget :=
  {| label := "app.sln"; description := "/src";
     target := {| fsPath := "/src/app.sln" |} |}.

Definition tools_target : LaunchTarget :=
  {| label := "tools"; description := "/src/tools";
     target := {| fsPath := "/src/tools" |} |}.

Definition workbench : Workbench :=
  {| findLaunchTargets := Resolved [app_target; tools_target];
     showQuickPick := fun _ => Some 1;
     restart := fun _ => Resolved tt |}.

Definition dismissing : Workbench :=
  {| findLaunchTargets := Resolved [app_target; tools_target];
     showQuickPick := fun _ => None;
     restart := fun _ => Resolved tt |}.

End Launch.

(** * Properties *)

(** ** Loops *)

Lemma forEach_push_map {A B} (f : A -> B) (xs : list A) (acc : list B) :
  forEach xs (fun x acc => push acc (f x)) acc = (acc ++ map f xs)%list.
Proof.
  unfold forEach, push.
  revert acc; induction xs as [|x xs IH]; intros acc; simpl.
  - now rewrite app_nil_r.
  - rewrite IH, <- app_assoc. reflexivity.
Qed.

Lemma forEach_append_flat_map {A B} (g : A -> list B) (xs : list A)
      (acc : list B) :
  forEach xs (fun x acc => (acc ++ g x)%list) acc = (acc ++ flat_map g xs)%list.
Proof.
  unfold forEach.
  revert acc; induction xs as [|x xs IH]; intros acc; simpl.
  - now rewrite app_nil_r.
  - rewrite IH, <- app_assoc. reflexivity.
Qed.

Lemma forEach_ext {A S} (f g : A -> S -> S) (xs : list A) (s : S) :
  (forall x acc, f x acc = g x acc) -> forEach xs f s = forEach xs g s.
Proof.
  unfold forEach. intros E.
  revert s; induction xs as [|x xs IH]; intros s; simpl; [reflexivity|].
  now rewrite E, IH.
Qed.

Lemma length_flat_map_sum {A B} (g : A -> list B) (xs : list A) :
  List.length (flat_map g xs) = list_sum (map (fun x => List.length (g x)) xs).
Proof.
  induction xs as [|x xs IH]; simpl; [reflexivity|].
  now rewrite length_app, IH.
Qed.

Section Catalogs.

Context {path : PathModule}.
Variable info : WorkspaceInformationResponse.

Lemma dnx_commands_flat_map :
  dnx_commands info =
  flat_map (fun project =>
              map (dnx_command info project) (Object_keys (Commands project)))
           (Projects (Dnx info)).
Proof.
  unfold dnx_commands.
  rewrite (forEach_ext _
             (fun project acc =>
                (acc ++ map (dnx_command info project)
                            (Object_keys (Commands project)))%list)).
  - now rewrite forEach_append_flat_map.
  - intros project acc. apply forEach_push_map.
Qed.

Lemma dnu_restore_commands_map :
  dnu_restore_commands info =
  map (dnu_restore_command info) (Projects (Dnx info)).
Proof.
  unfold dnu_restore_commands. now rewrite forEach_push_map.
Qed.

Lemma in_dnx_commands (c : Command) :
  In c (dnx_commands info) <->
  exists project key,
    In project (Projects (Dnx info)) /\
    In key (Object_keys (Commands project)) /\
    c = dnx_command info project key.
Proof.
  rewrite dnx_commands_flat_map, in_flat_map. split.
  - intros (project & Hp & Hc). apply in_map_iff in Hc as (key & <- & Hk).
    now exists project, key.
  - intros (project & key & Hp & Hk & ->). exists project. split; [easy|].
    now apply in_map.
Qed.

Lemma in_dnu_restore_commands (c : Command) :
  In c (dnu_restore_commands info) <->
  exists project,
    In project (Projects (Dnx info)) /\ c = dnu_restore_command info project.
Proof.
  rewrite dnu_restore_commands_map, in_map_iff. split.
  - intros (project & <- & Hp). now exists project.
  - intros (project & Hp & ->). now exists project.
Qed.

Lemma dnx_closures :
  map execute (dnx_commands info) =
  flat_map (fun project =>
              map (DnxExecute info project) (Object_keys (Commands project)))
           (Projects (Dnx info)).
Proof.
  rewrite dnx_commands_flat_map.
  induction (Projects (Dnx info)) as [|p ps IH]; simpl; [reflexivity|].
  rewrite map_app, IH, map_map. reflexivity.
Qed.

Lemma length_dnx_commands :
  List.length (dnx_commands info) =
  list_sum (map (fun project => List.length (Commands project))
                (Projects (Dnx info))).
Proof.
  rewrite dnx_commands_flat_map, length_flat_map_sum. f_equal.
  apply map_ext. intros p. unfold Object_keys. now rewrite !length_map.
Qed.

End Catalogs.

(** ** Strings *)

Lemma append_assoc (a b c : string) : (a ++ b) ++ c = a ++ (b ++ c).
Proof. induction a as [|x a IH]; simpl; [reflexivity | now rewrite IH]. Qed.

Lemma length_append (a b : string) :
  String.length (a ++ b) = String.length a + String.length b.
Proof. induction a as [|x a IH]; simpl; [reflexivity | now rewrite IH]. Qed.

Lemma append_inv_head (s a b : string) : s ++ a = s ++ b -> a = b.
Proof.
  induction s as [|x s IH]; simpl; intros H; [exact H|].
  injection H as H. now apply IH.
Qed.

Lemma append_inv_tail (a b t : string) : a ++ t = b ++ t -> a = b.
Proof.
  revert b; induction a as [|x a IH]; intros [|y b] H; simpl in H.
  - reflexivity.
  - apply (f_equal String.length) in H. simpl in H.
    rewrite length_append in H. lia.
  - apply (f_equal String.length) in H. simpl in H.
    rewrite length_append in H. lia.
  - injection H as -> H. f_equal. now apply IH.
Qed.

(** ** Labels *)

Section Labels.

Context {path : PathModule}.
Variable info : WorkspaceInformationResponse.

Lemma dnx_label_eq_iff (p1 p2 : DnxProject) (key : string) :
  label (dnx_command info p1 key) = label (dnx_command info p2 key) <->
  display_name p1 = display_name p2.
Proof.
  unfold dnx_command, display_name; simpl. split.
  - intros H.
    apply (append_inv_head "dnx ") in H.
    apply append_inv_head in H.
    apply (append_inv_head " - (") in H.
    now apply append_inv_tail in H.
  - now intros ->.
Qed.

Lemma dnu_restore_label_eq_iff (p1 p2 : DnxProject) :
  label (dnu_restore_command info p1) = label (dnu_restore_command info p2) <->
  display_name p1 = display_name p2.
Proof.
  unfold dnu_restore_command, display_name; simpl. split.
  - intros H.
    apply (append_inv_head "dnu restore - (") in H.
    now apply append_inv_tail in H.
  - now intros ->.
Qed.

Lemma display_name_named (p : DnxProject) (n : string) :
  Name p = Some n -> n <> "" -> display_name p = n.
Proof.
  unfold display_name, js_or. intros -> Hn.
  apply String.eqb_neq in Hn. now rewrite Hn.
Qed.

Lemma display_name_unnamed (p : DnxProject) :
  truthy (Name p) = false -> display_name p = path_basename (Path p).
Proof.
  unfold display_name, js_or, truthy. destruct (Name p) as [n|]; [|easy].
  destruct (n =? ""); [easy | discriminate].
Qed.

(** C2, as the code has it. Labels are qualified by the project's display
    name, which is its name or, when the name is absent or empty, the
    basename of its path. Two entries for the same command key have
    equal labels exactly when the display names of their projects are
    equal; so entries of one catalog for the same key differ in their
    labels whenever the display names differ, the restore catalog has
    pairwise distinct labels whenever the display names are pairwise
    distinct, and two projects with the same command key and different
    non-empty names get different labels. *)
Theorem labels_distinct_when_display_names_differ :
  (forall p, display_name p =
             if truthy (Name p) then js_or (Name p) "" else path_basename (Path p)) /\
  (forall p1 p2 key,
      label (dnx_command info p1 key) = label (dnx_command info p2 key) <->
      display_name p1 = display_name p2) /\
  (forall c1 c2 p1 p2 key,
      In c1 (dnx_commands info) -> In c2 (dnx_commands info) ->
      execute c1 = DnxExecute info p1 key ->
      execute c2 = DnxExecute info p2 key ->
      display_name p1 <> display_name p2 ->
      label c1 <> label c2) /\
  (NoDup (map display_name (Projects (Dnx info))) ->
   NoDup (map label (dnu_restore_commands info))) /\
  (forall p1 p2 n1 n2 key,
      Name p1 = Some n1 -> Name p2 = Some n2 ->
      n1 <> "" -> n2 <> "" -> n1 <> n2 ->
      label (dnx_command info p1 key) <> label (dnx_command info p2 key) /\
      label (dnu_restore_command info p1) <> label (dnu_restore_command info p2)).
Proof.
  split; [|split; [|split; [|split]]].
  - intros p. unfold display_name, js_or, truthy.
    destruct (Name p) as [n|]; [|reflexivity].
    now destruct (n =? "").
  - apply dnx_label_eq_iff.
  - intros c1 c2 p1 p2 key H1 H2 E1 E2 Hd Hl.
    apply in_dnx_commands in H1 as (q1 & k1 & _ & _ & ->).
    apply in_dnx_commands in H2 as (q2 & k2 & _ & _ & ->).
    simpl in E1, E2. injection E1 as -> ->. injection E2 as -> ->.
    now apply Hd, dnx_label_eq_iff with (key := key).
  - rewrite dnu_restore_commands_map, map_map.
    induction (Projects (Dnx info)) as [|p ps IH]; simpl; intros Hn.
    + constructor.
    + inversion Hn as [|? ? Hnotin Hrest]; subst. constructor.
      * intros Hin. apply Hnotin.
        apply in_map_iff in Hin as (q & Hq & Hin).
        apply dnu_restore_label_eq_iff in Hq.
        rewrite <- Hq. now apply in_map.
      * now apply IH.
  - intros p1 p2 n1 n2 key E1 E2 N1 N2 Hne.
    assert (Hd : display_name p1 <> display_name p2).
    { now rewrite (display_name_named p1 E1 N1), (display_name_named p2 E2 N2). }
    split; intros Hl; apply Hd.
    + now apply dnx_label_eq_iff with (key := key).
    + now apply dnu_restore_label_eq_iff.
Qed.

End Labels.

(** ** The pre-release pattern *)

Lemma is_digit_1_6_iff (d : ascii) :
  is_digit_1_6 d = true <-> In d ["1"; "2"; "3"; "4"; "5"; "6"]%char.
Proof.
  split.
  - destruct d as [[] [] [] [] [] [] [] []]; vm_compute; intros H;
      try discriminate H; tauto.
  - intros H. repeat (destruct H as [<- | H]; [reflexivity|]). destruct H.
Qed.

Lemma prefix_iff (p s : string) :
  prefix p s = true <-> exists r, s = p ++ r.
Proof.
  revert s; induction p as [|a p IH]; intros s.
  - split; [intros _; now exists s | now destruct s].
  - destruct s as [|b s]; cbn [prefix].
    + split; [discriminate | intros (r & E); discriminate E].
    + destruct (ascii_dec a b) as [<- | Hne].
      * rewrite IH. split; intros (r & E); exists r.
        -- now rewrite E.
        -- simpl in E. now injection E.
      * split; [discriminate | intros (r & E)].
        simpl in E. injection E as <- _. now elim Hne.
Qed.

Lemma beta_at_iff (s : string) :
  beta_at s = true <->
  exists d post, s = "-beta" ++ String d post /\ is_digit_1_6 d = true.
Proof.
  unfold beta_at. rewrite andb_true_iff, prefix_iff. split.
  - intros ((r & ->) & H). destruct r as [|d post]; simpl in H; [discriminate H|].
    now exists d, post.
  - intros (d & post & -> & Hd). split; [now eexists | exact Hd].
Qed.

Lemma test_beta_1_6_iff (s : string) :
  test_beta_1_6 s = true <-> has_beta_digit_1_to_6 s.
Proof.
  unfold has_beta_digit_1_to_6. split.
  - induction s as [|c s IH]; cbn [test_beta_1_6]; intros H.
    + discriminate H.
    + apply orb_true_iff in H as [H | H].
      * apply beta_at_iff in H as (d & post & E & Hd).
        exists "", d, post. split; [exact E | now apply is_digit_1_6_iff].
      * destruct (IH H) as (pre & d & post & E & Hd).
        exists (String c pre), d, post. split; [now rewrite E | exact Hd].
  - intros (pre & d & post & -> & Hd). apply is_digit_1_6_iff in Hd.
    induction pre as [|c pre IH].
    + assert (Hb : beta_at ("" ++ "-beta" ++ String d post) = true).
      { apply beta_at_iff. now exists d, post. }
      simpl in *. now rewrite Hb.
    + change (test_beta_1_6 (String c pre ++ "-beta" ++ String d post))
        with (beta_at (String c pre ++ "-beta" ++ String d post)
              || test_beta_1_6 (pre ++ "-beta" ++ String d post)).
      rewrite IH. apply orb_true_r.
Qed.

Lemma beta_at_no_straddle (c : ascii) (a b : string) :
  beta_at (String c a ++ String "-" b) = true -> beta_at (String c a) = true.
Proof.
  intros H. apply beta_at_iff in H as (d & post & E & Hd).
  apply beta_at_iff.
  simpl in E. injection E as -> E.
  destruct a as [|c1 a]; simpl in E; [discriminate E|]. injection E as -> E.
  destruct a as [|c2 a]; simpl in E; [discriminate E|]. injection E as -> E.
  destruct a as [|c3 a]; simpl in E; [discriminate E|]. injection E as -> E.
  destruct a as [|c4 a]; simpl in E; [discriminate E|]. injection E as -> E.
  destruct a as [|c5 a]; simpl in E.
  - injection E as <- _. discriminate Hd.
  - injection E as -> _. now exists d, a.
Qed.

Lemma test_beta_1_6_around_beta7 (pre post : string) :
  test_beta_1_6 pre = false -> test_beta_1_6 post = false ->
  test_beta_1_6 (pre ++ "-beta7" ++ post) = false.
Proof.
  intros Hpre Hpost. induction pre as [|c pre IH].
  - assert (H0 : forall s, beta_at s = true -> exists r, s = String "-" r).
    { intros s H. apply beta_at_iff in H as (d & r & -> & _). now eexists. }
    assert (Hf : forall c r, c <> "-"%char -> beta_at (String c r) = false).
    { intros c r Hc. destruct (beta_at (String c r)) eqn:E; [|reflexivity].
      apply H0 in E as (r' & E). injection E as -> _. now elim Hc. }
    change ("" ++ "-beta7" ++ post) with ("-beta7" ++ post).
    assert (H7 : beta_at ("-beta7" ++ post) = false).
    { destruct (beta_at ("-beta7" ++ post)) eqn:E; [|reflexivity].
      apply beta_at_iff in E as (d & r & E & Hd).
      simpl in E. injection E as <- _. discriminate Hd. }
    change (test_beta_1_6 ("-beta7" ++ post))
      with (beta_at ("-beta7" ++ post)
            || (beta_at ("beta7" ++ post)
            || (beta_at ("eta7" ++ post)
            || (beta_at ("ta7" ++ post)
            || (beta_at ("a7" ++ post)
            || (beta_at ("7" ++ post)
            || test_beta_1_6 post)))))).
    rewrite H7, Hpost. cbn [append].
    rewrite !Hf by discriminate. reflexivity.
  - change (test_beta_1_6 (String c pre)) with
      (beta_at (String c pre) || test_beta_1_6 pre) in Hpre.
    apply orb_false_iff in Hpre as [Hb Hp].
    change (test_beta_1_6 (String c pre ++ "-beta7" ++ post))
      with (beta_at (String c pre ++ String "-" ("beta7" ++ post))
            || test_beta_1_6 (pre ++ "-beta7" ++ post)).
    rewrite (IH Hp), orb_false_r.
    destruct (beta_at (String c pre ++ String "-" ("beta7" ++ post))) eqn:E;
      [|reflexivity].
    apply beta_at_no_straddle in E. congruence.
Qed.

(** ** Promises and the [lastCommand] slot *)

Lemma keeps_resolve {A} (a : A) : keeps_lastCommand (resolve a).
Proof. now intros w. Qed.

Lemma keeps_reject {A} (r : string) : keeps_lastCommand (@reject A r).
Proof. now intros w. Qed.

Lemma keeps_settle {A} (o : Outcome A) : keeps_lastCommand (settle o).
Proof. now intros w. Qed.

Lemma keeps_emit (e : Event) : keeps_lastCommand (emit e).
Proof. now intros w. Qed.

Lemma keeps_createFile (p : string) : keeps_lastCommand (createFile p).
Proof. now intros w. Qed.

Lemma keeps_path_exists (p : string) : keeps_lastCommand (path_exists p).
Proof. now intros w. Qed.

Lemma keeps_andThen {A B} (p : Promise A) (k : A -> Promise B) :
  keeps_lastCommand p -> (forall a, keeps_lastCommand (k a)) ->
  keeps_lastCommand (andThen p k).
Proof.
  intros Hp Hk w. unfold andThen. specialize (Hp w).
  destruct (p w) as [[a | r] w']; simpl in *.
  - now rewrite Hk.
  - exact Hp.
Qed.

Lemma keeps_detached {A} (p : Promise A) :
  keeps_lastCommand p -> keeps_lastCommand (detached p).
Proof. intros Hp w. apply Hp. Qed.

Create HintDb keeps.
#[export] Hint Resolve keeps_resolve keeps_reject keeps_settle keeps_emit
  keeps_createFile keeps_path_exists keeps_andThen keeps_detached : keeps.

Ltac keeps_step :=
  match goal with
  | |- keeps_lastCommand (if ?b then _ else _) => destruct b
  | |- keeps_lastCommand (match ?x with _ => _ end) => destruct x
  | |- keeps_lastCommand (andThen _ _) => apply keeps_andThen; [|intros ?]
  | |- keeps_lastCommand (detached _) => apply keeps_detached
  | |- forall _, _ => intros ?
  end.

Ltac keeps := repeat (auto with keeps; try keeps_step).

Section Executors.

Context {path : PathModule}.
Variable platform : string.
Variable host : Host.

Lemma keeps_run_in_terminal (call : TerminalCall) :
  keeps_lastCommand (run_in_terminal host call).
Proof. unfold run_in_terminal. keeps. Qed.

Lemma keeps_server_makeRequest_Projects :
  keeps_lastCommand (server_makeRequest_Projects host).
Proof. unfold server_makeRequest_Projects. keeps. Qed.

Lemma keeps_window_showQuickPick (items : list Command) :
  keeps_lastCommand (window_showQuickPick host items).
Proof. unfold window_showQuickPick. keeps. Qed.

Lemma run_in_terminal_eq (call : TerminalCall) (w : World) :
  run_in_terminal host call w =
  (runInTerminal host call, after w [EvRunInTerminal call]).
Proof. reflexivity. Qed.

Lemma call_execute_dnx (this : Command) info project key (w : World) :
  execute this = DnxExecute info project key ->
  call_execute platform host this w =
  (runInTerminal host (dnx_call platform info project key),
   {| lastCommand := Some this; files := files w;
      trace := (trace w ++ [EvAssignLastCommand this;
                            EvRunInTerminal (dnx_call platform info project key)])%list |}).
Proof.
  intros E. unfold call_execute. rewrite E.
  unfold andThen, assignLastCommand, run_in_terminal, andThen, emit, settle.
  simpl. now rewrite <- app_assoc.
Qed.

Lemma call_execute_dnu_restore (this : Command) info project (w : World) :
  execute this = DnuRestore info project ->
  call_execute platform host this w =
  (runInTerminal host (dnu_restore_call platform info project),
   after w [EvRunInTerminal (dnu_restore_call platform info project)]).
Proof. intros E. unfold call_execute. now rewrite E. Qed.

(** C3, as the code has it. The argument list of a generic entry's
    terminal call is ['.', key] exactly when the text of the runtime path
    contains [-beta] immediately followed by a digit from 1 to 6, at any
    place and whatever follows the digit, and [key] otherwise. A path
    containing [-beta3] gives ['.', key], and so does one containing
    [-beta10]; a path containing [-beta7] gives [key] when no [-beta]
    followed by a digit from 1 to 6 occurs before or after that marker.
    That call is the one the entry's [execute] hands to the terminal. *)
Theorem dnx_arguments (info : WorkspaceInformationResponse)
        (project : DnxProject) (key : string) :
  (tc_args (dnx_call platform info project key) = ["."; key] <->
   has_beta_digit_1_to_6 (RuntimePath (Dnx info))) /\
  (~ has_beta_digit_1_to_6 (RuntimePath (Dnx info)) ->
   tc_args (dnx_call platform info project key) = [key]) /\
  (forall pre post,
      RuntimePath (Dnx info) = pre ++ "-beta3" ++ post ->
      tc_args (dnx_call platform info project key) = ["."; key]) /\
  (forall pre post,
      RuntimePath (Dnx info) = pre ++ "-beta7" ++ post ->
      ~ has_beta_digit_1_to_6 pre -> ~ has_beta_digit_1_to_6 post ->
      tc_args (dnx_call platform info project key) = [key]) /\
  (forall pre post,
      RuntimePath (Dnx info) = pre ++ "-beta10" ++ post ->
      tc_args (dnx_call platform info project key) = ["."; key]) /\
  (forall w,
      trace (snd (call_execute platform host (dnx_command info project key) w)) =
      (trace w ++ [EvAssignLastCommand (dnx_command info project key);
                   EvRunInTerminal (dnx_call platform info project key)])%list).
Proof.
  assert (Hyes : test_beta_1_6 (RuntimePath (Dnx info)) = true ->
                 tc_args (dnx_call platform info project key) = ["."; key]).
  { intros H. unfold dnx_call. simpl. now rewrite H. }
  assert (Hno : test_beta_1_6 (RuntimePath (Dnx info)) = false ->
                tc_args (dnx_call platform info project key) = [key]).
  { intros H. unfold dnx_call. simpl. now rewrite H. }
  split; [|split; [|split; [|split; [|split]]]].
  - rewrite <- test_beta_1_6_iff.
    destruct (test_beta_1_6 (RuntimePath (Dnx info))) eqn:E.
    + split; [reflexivity | intros _; now apply Hyes].
    + rewrite (Hno eq_refl). split; discriminate.
  - rewrite <- test_beta_1_6_iff. intros H. apply Hno.
    now destruct (test_beta_1_6 (RuntimePath (Dnx info))).
  - intros pre post E. apply Hyes, test_beta_1_6_iff.
    exists pre, "3"%char, post. split; [exact E | simpl; tauto].
  - intros pre post E Hpre Hpost. apply Hno. rewrite E.
    apply test_beta_1_6_around_beta7.
    + rewrite <- test_beta_1_6_iff in Hpre. now destruct (test_beta_1_6 pre).
    + rewrite <- test_beta_1_6_iff in Hpost. now destruct (test_beta_1_6 post).
  - intros pre post E. apply Hyes, test_beta_1_6_iff.
    exists pre, "1"%char, ("0" ++ post). split; [exact E | simpl; tauto].
  - intros w.
    now rewrite (call_execute_dnx (dnx_command info project key) w eq_refl).
Qed.

(** C9. On a platform whose name starts with [win] the generic
    executor's executable is [path.join(runtimePath, 'bin/dnx')] with
    [.exe] appended and the restore executor's is
    [path.join(runtimePath, 'bin/dnu')] with [.cmd] appended; on every
    other platform the joined path is used as it is. *)
Theorem executable_suffix (info : WorkspaceInformationResponse)
        (project : DnxProject) (key : string) :
  (isWin platform = true <-> exists rest, platform = "win" ++ rest) /\
  (isWin platform = true ->
   tc_command (dnx_call platform info project key) =
     path_join (RuntimePath (Dnx info)) "bin/dnx" ++ ".exe" /\
   tc_command (dnu_restore_call platform info project) =
     path_join (RuntimePath (Dnx info)) "bin/dnu" ++ ".cmd") /\
  (isWin platform = false ->
   tc_command (dnx_call platform info project key) =
     path_join (RuntimePath (Dnx info)) "bin/dnx" /\
   tc_command (dnu_restore_call platform info project) =
     path_join (RuntimePath (Dnx info)) "bin/dnu").
Proof.
  split; [|split].
  - unfold isWin, test_win. apply prefix_iff.
  - intros H. unfold dnx_call, dnu_restore_call. simpl. now rewrite H.
  - intros H. unfold dnx_call, dnu_restore_call. simpl. now rewrite H.
Qed.

End Executors.

#[export] Hint Resolve keeps_run_in_terminal
  keeps_server_makeRequest_Projects keeps_window_showQuickPick : keeps.

(** ** The operations *)

Lemma after_after (w : World) (e1 e2 : list Event) :
  after (after w e1) e2 = after w (e1 ++ e2).
Proof. unfold after; simpl. now rewrite <- app_assoc. Qed.

Lemma contains_intro (pre sub post : string) : contains (pre ++ sub ++ post) sub.
Proof. now exists pre, post. Qed.

Section Operations.

Context {path : PathModule}.
Variable platform : string.
Variable host : Host.

Lemma restore_first_match_found info fileName before project rest w :
  Path project = fileName ->
  (forall q, In q before -> Path q <> fileName) ->
  restore_first_match platform host info fileName (before ++ project :: rest) w =
  run_in_terminal host (dnu_restore_call platform info project) w.
Proof.
  intros Hp. induction before as [|q before IH]; intros Hq; simpl.
  - apply String.eqb_eq in Hp. now rewrite Hp.
  - assert (Hne : Path q <> fileName) by (apply Hq; now left).
    apply String.eqb_neq in Hne. rewrite Hne.
    apply IH. intros q' Hin. apply Hq. now right.
Qed.

Lemma restore_first_match_missing info fileName projects w :
  (forall q, In q projects -> Path q <> fileName) ->
  restore_first_match platform host info fileName projects w =
  (Rejected (not_found_message fileName), w).
Proof.
  induction projects as [|q projects IH]; intros Hq; simpl.
  - reflexivity.
  - assert (Hne : Path q <> fileName) by (apply Hq; now left).
    apply String.eqb_neq in Hne. rewrite Hne.
    apply IH. intros q' Hin. apply Hq. now right.
Qed.

Lemma keeps_restore_first_match info fileName projects :
  keeps_lastCommand (restore_first_match platform host info fileName projects).
Proof. induction projects as [|q projects IH]; simpl; keeps. Qed.

Lemma dnxRestoreForProject_fetched fileName info w :
  makeRequest_Projects host = Resolved info ->
  dnxRestoreForProject platform host fileName w =
  restore_first_match platform host info fileName (Projects (Dnx info))
                      (after w [EvRequestProjects]).
Proof.
  intros E. unfold dnxRestoreForProject, server_makeRequest_Projects.
  unfold andThen, emit, settle. now rewrite E.
Qed.

Lemma call_execute_extends (c : Command) (w : World) :
  exists evs,
    trace (snd (call_execute platform host c w)) = (trace w ++ evs)%list.
Proof.
  destruct (execute c) as [info project key | info project] eqn:E.
  - rewrite (call_execute_dnx platform host c w E). now eexists.
  - rewrite (call_execute_dnu_restore platform host c w E). now eexists.
Qed.

Lemma pick_and_execute_shows (items : list Command) (w : World) :
  exists rest,
    trace (snd (pick_and_execute platform host items w)) =
    (trace w ++ EvShowQuickPick items :: rest)%list.
Proof.
  unfold pick_and_execute, andThen, window_showQuickPick.
  unfold andThen, emit, resolve. cbn [fst snd].
  set (w1 := {| lastCommand := lastCommand w; files := files w;
                trace := (trace w ++ [EvShowQuickPick items])%list |}).
  assert (Hnone : exists rest,
             trace w1 = (trace w ++ EvShowQuickPick items :: rest)%list)
    by now exists [].
  destruct (showQuickPick host items) as [i|]; [|exact Hnone].
  destruct (nth_error items i) as [c|]; [|exact Hnone].
  destruct (call_execute_extends c w1) as (evs & ->).
  exists evs. unfold w1; simpl. now rewrite <- app_assoc.
Qed.

Lemma dnxExecuteCommand_fetched info w :
  isRunning host = true -> makeRequest_Projects host = Resolved info ->
  dnxExecuteCommand platform host w =
  pick_and_execute platform host (dnx_commands info) (after w [EvRequestProjects]).
Proof.
  intros Hr E. unfold dnxExecuteCommand, server_makeRequest_Projects.
  rewrite Hr. unfold andThen at 1. unfold andThen, emit, settle.
  now rewrite E.
Qed.

Lemma dnxRestoreForAll_fetched info w :
  isRunning host = true -> makeRequest_Projects host = Resolved info ->
  dnxRestoreForAll platform host w =
  pick_and_execute platform host (dnu_restore_commands info)
                   (after w [EvRequestProjects]).
Proof.
  intros Hr E. unfold dnxRestoreForAll, server_makeRequest_Projects.
  rewrite Hr. unfold andThen at 1. unfold andThen, emit, settle.
  now rewrite E.
Qed.

(** C1. With N projects, project i exposing Mi commands, the generic
    catalog has exactly sum(Mi) entries, one per (project, command key)
    pair, in project order and then in key order; the restore catalog has
    exactly N entries, one per project, in project order. These are the
    lists [dnxExecuteCommand] and [dnxRestoreForAll] hand to the picker
    once the snapshot is fetched. *)
Theorem catalog_sizes_and_order (info : WorkspaceInformationResponse) :
  dnx_commands info =
    flat_map (fun project =>
                map (dnx_command info project) (Object_keys (Commands project)))
             (Projects (Dnx info)) /\
  map execute (dnx_commands info) =
    flat_map (fun project =>
                map (DnxExecute info project) (Object_keys (Commands project)))
             (Projects (Dnx info)) /\
  List.length (dnx_commands info) =
    list_sum (map (fun project => List.length (Commands project))
                  (Projects (Dnx info))) /\
  dnu_restore_commands info =
    map (dnu_restore_command info) (Projects (Dnx info)) /\
  map execute (dnu_restore_commands info) =
    map (DnuRestore info) (Projects (Dnx info)) /\
  List.length (dnu_restore_commands info) = List.length (Projects (Dnx info)) /\
  (forall w,
      isRunning host = true -> makeRequest_Projects host = Resolved info ->
      (exists rest,
          trace (snd (dnxExecuteCommand platform host w)) =
          (trace w ++ EvRequestProjects
                   :: EvShowQuickPick (dnx_commands info) :: rest)%list) /\
      (exists rest,
          trace (snd (dnxRestoreForAll platform host w)) =
          (trace w ++ EvRequestProjects
                   :: EvShowQuickPick (dnu_restore_commands info) :: rest)%list)).
Proof.
  split; [apply dnx_commands_flat_map|].
  split; [apply dnx_closures|].
  split; [apply length_dnx_commands|].
  split; [apply dnu_restore_commands_map|].
  split; [rewrite dnu_restore_commands_map; now rewrite map_map|].
  split; [rewrite dnu_restore_commands_map; now rewrite length_map|].
  intros w Hr E. split.
  - rewrite (dnxExecuteCommand_fetched w Hr E).
    destruct (pick_and_execute_shows (dnx_commands info)
                                     (after w [EvRequestProjects])) as (rest & ->).
    exists rest. simpl. now rewrite <- app_assoc.
  - rewrite (dnxRestoreForAll_fetched w Hr E).
    destruct (pick_and_execute_shows (dnu_restore_commands info)
                                     (after w [EvRequestProjects])) as (rest & ->).
    exists rest. simpl. now rewrite <- app_assoc.
Qed.

(** C6. Once the snapshot is fetched, [dnxRestoreForProject] runs the
    restore call of the first project whose path is the requested one,
    with no picker and no other call; when no project has that path it
    rejects with a message that contains the requested path and the
    manual command. *)
Theorem dnxRestoreForProject_first_match fileName info w :
  makeRequest_Projects host = Resolved info ->
  (forall before project rest,
      Projects (Dnx info) = (before ++ project :: rest)%list ->
      Path project = fileName ->
      (forall q, In q before -> Path q <> fileName) ->
      dnxRestoreForProject platform host fileName w =
      (runInTerminal host (dnu_restore_call platform info project),
       after w [EvRequestProjects;
                EvRunInTerminal (dnu_restore_call platform info project)])) /\
  ((forall q, In q (Projects (Dnx info)) -> Path q <> fileName) ->
   dnxRestoreForProject platform host fileName w =
   (Rejected (not_found_message fileName), after w [EvRequestProjects]) /\
   contains (not_found_message fileName) fileName /\
   contains (not_found_message fileName) "dnu restore").
Proof.
  intros E. split.
  - intros before project rest Hsplit Hp Hq.
    rewrite (dnxRestoreForProject_fetched fileName w E), Hsplit.
    rewrite restore_first_match_found by assumption.
    rewrite run_in_terminal_eq, after_after. reflexivity.
  - intros Hq. split; [|split].
    + rewrite (dnxRestoreForProject_fetched fileName w E).
      now apply restore_first_match_missing.
    + apply contains_intro.
    + exists "Failed to execute restore, try to run '",
        ("' manually for " ++ fileName ++ ".").
      reflexivity.
Qed.

(** [dnxRestoreForProject] starts with the fetch whatever the server's
    running state is; the two pickers reject before it. *)
Lemma dnxRestoreForProject_always_fetches fileName w :
  exists evs,
    trace (snd (dnxRestoreForProject platform host fileName w)) =
    (trace w ++ EvRequestProjects :: evs)%list.
Proof.
  unfold dnxRestoreForProject, server_makeRequest_Projects.
  unfold andThen at 1. unfold andThen, emit, settle.
  destruct (makeRequest_Projects host) as [info | r]; simpl.
  - induction (Projects (Dnx info)) as [|q projects IH]; simpl.
    + now exists [].
    + destruct (Path q =? fileName).
      * rewrite run_in_terminal_eq. simpl. rewrite <- app_assoc. now eexists.
      * exact IH.
  - now exists [].
Qed.

Lemma pickers_reject_when_not_running w :
  isRunning host = false ->
  dnxExecuteCommand platform host w =
    (Rejected "OmniSharp server is not running.", w) /\
  dnxRestoreForAll platform host w =
    (Rejected "OmniSharp server is not running.", w).
Proof.
  intros E. unfold dnxExecuteCommand, dnxRestoreForAll. now rewrite E.
Qed.

(** [dotnetRestore] hands the solution path or folder itself to the
    terminal as working directory, whatever its kind. *)
Lemma dotnetRestore_cwd solutionPathOrFolder w :
  isRunning host = true ->
  getSolutionPathOrFolder host = Some solutionPathOrFolder ->
  solutionPathOrFolder <> "" ->
  dotnetRestore host w =
  (Resolved tt,
   after w [EvRunInTerminal
              {| tc_command := "dotnet"; tc_args := ["restore"];
                 tc_cwd := solutionPathOrFolder; tc_env := None |}]).
Proof.
  intros Hr Hs Hne. unfold dotnetRestore. rewrite Hr, Hs. simpl.
  apply String.eqb_neq in Hne. rewrite Hne.
  unfold detached, andThen, pathHelpers_getPathKind.
  now destruct (getPathKind host solutionPathOrFolder).
Qed.

End Operations.

#[export] Hint Resolve keeps_restore_first_match : keeps.

(** ** The [lastCommand] slot *)

Section LastCommand.

Context {path : PathModule}.
Variable platform : string.
Variable host : Host.

Lemma keeps_pick_and_execute (items : list Command) :
  (forall c, In c items -> keeps_lastCommand (call_execute platform host c)) ->
  keeps_lastCommand (pick_and_execute platform host items).
Proof.
  intros H w. unfold pick_and_execute, andThen, window_showQuickPick.
  unfold andThen, emit, resolve. simpl.
  destruct (showQuickPick host items) as [i|]; [|reflexivity].
  destruct (nth_error items i) as [c|] eqn:E; [|reflexivity].
  apply nth_error_In in E. now rewrite (H c E).
Qed.

Lemma keeps_call_execute_dnu_restore this info project :
  execute this = DnuRestore info project ->
  keeps_lastCommand (call_execute platform host this).
Proof. intros E w. now rewrite (call_execute_dnu_restore platform host this w E). Qed.

Lemma keeps_dnxRestoreForAll : keeps_lastCommand (dnxRestoreForAll platform host).
Proof.
  unfold dnxRestoreForAll. keeps.
  apply keeps_pick_and_execute. intros c Hc.
  apply in_dnu_restore_commands in Hc as (project & _ & ->).
  now apply keeps_call_execute_dnu_restore with (info := a) (project := project).
Qed.

Lemma keeps_dnxRestoreForProject fileName :
  keeps_lastCommand (dnxRestoreForProject platform host fileName).
Proof. unfold dnxRestoreForProject. keeps. Qed.

Lemma keeps_dotnetRestore : keeps_lastCommand (dotnetRestore host).
Proof. unfold dotnetRestore, pathHelpers_getPathKind. keeps. Qed.

Lemma keeps_addTasksJson extensionPath :
  keeps_lastCommand (addTasksJson host extensionPath).
Proof.
  unfold addTasksJson, getExpectedVsCodeFolderPath, ensureDirectoryCreated,
    pipe_streams, pathHelpers_mkdir, pathHelpers_getPathKind,
    window_showInformationMessage.
  keeps.
Qed.

Lemma pick_and_execute_dnx_slot info w :
  let w' := snd (pick_and_execute platform host (dnx_commands info) w) in
  lastCommand w' = lastCommand w \/
  exists c, dnx_entry c /\ lastCommand w' = Some c.
Proof.
  unfold pick_and_execute, andThen, window_showQuickPick.
  unfold andThen, emit, resolve. cbn [fst snd].
  destruct (showQuickPick host (dnx_commands info)) as [i|]; [|now left].
  destruct (nth_error (dnx_commands info) i) as [c|] eqn:E; [|now left].
  apply nth_error_In, in_dnx_commands in E as (project & key & _ & _ & ->).
  right. exists (dnx_command info project key). split.
  - now exists info, project, key.
  - now rewrite (call_execute_dnx platform host (dnx_command info project key) _ eq_refl).
Qed.

Lemma dnxExecuteCommand_slot w :
  let w' := snd (dnxExecuteCommand platform host w) in
  lastCommand w' = lastCommand w \/
  exists c, dnx_entry c /\ lastCommand w' = Some c.
Proof.
  unfold dnxExecuteCommand.
  destruct (isRunning host); cbn [negb]; [|now left].
  unfold server_makeRequest_Projects.
  unfold andThen at 1. unfold andThen, emit, settle.
  destruct (makeRequest_Projects host) as [info | r]; [|now left].
  apply (pick_and_execute_dnx_slot info (after w [EvRequestProjects])).
Qed.

Lemma dnxExecuteLastCommand_slot w :
  let w' := snd (dnxExecuteLastCommand platform host w) in
  lastCommand w' = lastCommand w \/
  exists c, dnx_entry c /\ lastCommand w' = Some c.
Proof.
  unfold dnxExecuteLastCommand.
  destruct (lastCommand w) as [c|] eqn:El.
  - left. unfold detached. cbn [snd].
    destruct (execute c) as [info project key | info project] eqn:E.
    + now rewrite (call_execute_dnx platform host c w E).
    + rewrite (call_execute_dnu_restore platform host c w E). exact El.
  - unfold detached. cbn [snd]. rewrite <- El. apply dnxExecuteCommand_slot.
Qed.

(** C10. Executing a restore entry, and each of [dnxRestoreForAll] and
    [dnxRestoreForProject] as a whole (as well as [dotnetRestore] and
    [addTasksJson]), leaves [lastCommand] as it was. Executing a generic
    entry assigns the entry to [lastCommand] first and calls the
    terminal second, so the slot holds the entry also when the terminal
    run rejects. After [dnxExecuteCommand] or [dnxExecuteLastCommand] the
    slot is as before or holds an entry of the generic catalog. *)
Theorem lastCommand_assigned_only_by_dnx_execute :
  (forall this info project w,
      execute this = DnuRestore info project ->
      lastCommand (snd (call_execute platform host this w)) = lastCommand w) /\
  (forall w, lastCommand (snd (dnxRestoreForAll platform host w)) = lastCommand w) /\
  (forall fileName w,
      lastCommand (snd (dnxRestoreForProject platform host fileName w)) =
      lastCommand w) /\
  (forall w, lastCommand (snd (dotnetRestore host w)) = lastCommand w) /\
  (forall extensionPath w,
      lastCommand (snd (addTasksJson host extensionPath w)) = lastCommand w) /\
  (forall this info project key w,
      execute this = DnxExecute info project key ->
      call_execute platform host this w =
      (runInTerminal host (dnx_call platform info project key),
       {| lastCommand := Some this; files := files w;
          trace := (trace w ++
                    [EvAssignLastCommand this;
                     EvRunInTerminal (dnx_call platform info project key)])%list |})) /\
  (forall this info project key w reason,
      execute this = DnxExecute info project key ->
      runInTerminal host (dnx_call platform info project key) = Rejected reason ->
      fst (call_execute platform host this w) = Rejected reason /\
      lastCommand (snd (call_execute platform host this w)) = Some this) /\
  (forall w,
      lastCommand (snd (dnxExecuteCommand platform host w)) = lastCommand w \/
      exists c, dnx_entry c /\
                lastCommand (snd (dnxExecuteCommand platform host w)) = Some c) /\
  (forall w,
      lastCommand (snd (dnxExecuteLastCommand platform host w)) = lastCommand w \/
      exists c, dnx_entry c /\
                lastCommand (snd (dnxExecuteLastCommand platform host w)) = Some c).
Proof.
  split; [|split; [|split; [|split; [|split; [|split; [|split; [|split]]]]]]].
  - intros this info project w E.
    now apply (keeps_call_execute_dnu_restore this E).
  - apply keeps_dnxRestoreForAll.
  - intros fileName. apply keeps_dnxRestoreForProject.
  - apply keeps_dotnetRestore.
  - intros extensionPath. apply keeps_addTasksJson.
  - intros this info project key w E. now apply call_execute_dnx.
  - intros this info project key w reason E Hrej.
    rewrite (call_execute_dnx platform host this w E). now split.
  - apply dnxExecuteCommand_slot.
  - apply dnxExecuteLastCommand_slot.
Qed.

End LastCommand.

(** ** Scaffolding of tasks.json *)


Lemma app_eq_self {A} (l evs : list A) : l = (l ++ evs)%list -> evs = [].
Proof.
  intros H. rewrite <- (app_nil_r l) in H at 1.
  apply app_inv_head in H. now symmetry.
Qed.

Section Scaffolding.

Context {path : PathModule}.
Variable host : Host.

(** What [addTasksJson] does once both preconditions hold. *)
Lemma addTasksJson_running extensionPath solutionPathOrFolder w :
  isRunning host = true ->
  getSolutionPathOrFolder host = Some solutionPathOrFolder ->
  solutionPathOrFolder <> "" ->
  addTasksJson host extensionPath w =
  let folder := vscode_folder host solutionPathOrFolder in
  let target := tasks_json_path host solutionPathOrFolder in
  let template := template_path extensionPath in
  if on_disk w target then
    (Resolved target,
     after w [EvShowInformationMessage (target ++ " already exists.")])
  else if negb (on_disk w template) then
    (Rejected "Could not find template-tasks.json file in extension.", w)
  else if on_disk w folder then
    (Resolved target,
     {| lastCommand := lastCommand w; files := target :: files w;
        trace := (trace w ++ [EvPipe template target])%list |})
  else if mkdir host folder then
    (Resolved target,
     {| lastCommand := lastCommand w; files := target :: folder :: files w;
        trace := (trace w ++ [EvMkdir folder; EvPipe template target])%list |})
  else
    (Rejected ("Could not create " ++ folder ++ " directory."),
     after w [EvMkdir folder]).
Proof.
  intros Hr Hs Hne. unfold addTasksJson. rewrite Hr, Hs. simpl.
  apply String.eqb_neq in Hne. rewrite Hne.
  unfold tasks_json_path, vscode_folder, template_path.
  unfold getExpectedVsCodeFolderPath, pathHelpers_getPathKind.
  unfold andThen at 1. unfold andThen at 1.
  assert (Hk : forall (k : string -> Promise string) w0,
             (match getPathKind host solutionPathOrFolder with
              | File => resolve (path_join (path_dirname solutionPathOrFolder) ".vscode")
              | Directory => resolve (path_join solutionPathOrFolder ".vscode")
              end) w0 =
             (Resolved match getPathKind host solutionPathOrFolder with
                       | File => path_join (path_dirname solutionPathOrFolder) ".vscode"
                       | Directory => path_join solutionPathOrFolder ".vscode"
                       end, w0)).
  { intros _ w0. now destruct (getPathKind host solutionPathOrFolder). }
  unfold resolve at 1. rewrite (Hk (fun s => resolve s)).
  set (folder := match getPathKind host solutionPathOrFolder with
                 | File => _ | Directory => _ end).
  unfold andThen at 1, path_exists at 1.
  destruct (on_disk w (path_join folder "tasks.json")) eqn:Et.
  { reflexivity. }
  unfold andThen at 1, path_exists at 1.
  destruct (on_disk w (path_join extensionPath "template-tasks.json")) eqn:Em;
    simpl; [|reflexivity].
  unfold ensureDirectoryCreated, andThen at 1. unfold andThen at 1.
  unfold path_exists at 1.
  destruct (on_disk w folder) eqn:Ef.
  { unfold resolve at 1. unfold pipe_streams, andThen, emit, createFile, resolve.
    reflexivity. }
  unfold pathHelpers_mkdir.
  destruct (mkdir host folder) eqn:Ed.
  - unfold pipe_streams, andThen, emit, createFile, resolve. simpl.
    now rewrite <- app_assoc.
  - reflexivity.
Qed.

(** C7. When [<configFolder>/tasks.json] is already on disk,
    [addTasksJson] shows the notice and resolves with that path; the
    disk is as before and nothing but the notice happened. A second
    call in the resulting state does the same again. *)
Theorem addTasksJson_existing_file extensionPath solutionPathOrFolder w :
  isRunning host = true ->
  getSolutionPathOrFolder host = Some solutionPathOrFolder ->
  solutionPathOrFolder <> "" ->
  on_disk w (tasks_json_path host solutionPathOrFolder) = true ->
  let target := tasks_json_path host solutionPathOrFolder in
  let notice := EvShowInformationMessage (target ++ " already exists.") in
  addTasksJson host extensionPath w = (Resolved target, after w [notice]) /\
  files (snd (addTasksJson host extensionPath w)) = files w /\
  addTasksJson host extensionPath (snd (addTasksJson host extensionPath w)) =
    (Resolved target, after w [notice; notice]).
Proof.
  intros Hr Hs Hne Hd target notice.
  assert (H1 : addTasksJson host extensionPath w =
               (Resolved target, after w [notice])).
  { rewrite (addTasksJson_running extensionPath w Hr Hs Hne). cbv zeta.
    now rewrite Hd. }
  rewrite H1. cbn [snd]. repeat split.
  rewrite (addTasksJson_running extensionPath (after w [notice]) Hr Hs Hne).
  cbv zeta.
  change (on_disk (after w [notice]) (tasks_json_path host solutionPathOrFolder))
    with (on_disk w (tasks_json_path host solutionPathOrFolder)).
  rewrite Hd. now rewrite after_after.
Qed.

(** C8. Every error path of [addTasksJson] rejects with its message and
    writes nothing: server not running, no solution path or folder,
    template missing while the target is absent, and folder creation
    failed (the message names the folder). The copy happens only after
    all checks have passed, it is the last effect, and the call then
    resolves with the target path. A rejected call leaves the disk as it
    was. *)
Theorem addTasksJson_error_paths extensionPath w :
  (isRunning host = false ->
   addTasksJson host extensionPath w = (Rejected "OmniSharp is not running.", w)) /\
  (isRunning host = true -> truthy (getSolutionPathOrFolder host) = false ->
   addTasksJson host extensionPath w = (Rejected "No solution or folder open.", w)) /\
  (forall sp,
      isRunning host = true -> getSolutionPathOrFolder host = Some sp ->
      sp <> "" ->
      on_disk w (tasks_json_path host sp) = false ->
      on_disk w (template_path extensionPath) = false ->
      addTasksJson host extensionPath w =
      (Rejected "Could not find template-tasks.json file in extension.", w)) /\
  (forall sp,
      isRunning host = true -> getSolutionPathOrFolder host = Some sp ->
      sp <> "" ->
      on_disk w (tasks_json_path host sp) = false ->
      on_disk w (template_path extensionPath) = true ->
      on_disk w (vscode_folder host sp) = false ->
      mkdir host (vscode_folder host sp) = false ->
      addTasksJson host extensionPath w =
      (Rejected ("Could not create " ++ vscode_folder host sp ++ " directory."),
       after w [EvMkdir (vscode_folder host sp)]) /\
      contains ("Could not create " ++ vscode_folder host sp ++ " directory.")
               (vscode_folder host sp)) /\
  (forall evs fromPath toPath,
      trace (snd (addTasksJson host extensionPath w)) = (trace w ++ evs)%list ->
      In (EvPipe fromPath toPath) evs ->
      isRunning host = true /\
      exists sp,
        getSolutionPathOrFolder host = Some sp /\ sp <> "" /\
        on_disk w (tasks_json_path host sp) = false /\
        on_disk w (template_path extensionPath) = true /\
        (on_disk w (vscode_folder host sp) = true \/
         mkdir host (vscode_folder host sp) = true) /\
        fromPath = template_path extensionPath /\
        toPath = tasks_json_path host sp /\
        fst (addTasksJson host extensionPath w) =
          Resolved (tasks_json_path host sp) /\
        exists before,
          evs = (before ++ [EvPipe fromPath toPath])%list /\
          forall a b, ~ In (EvPipe a b) before) /\
  (forall reason,
      fst (addTasksJson host extensionPath w) = Rejected reason ->
      files (snd (addTasksJson host extensionPath w)) = files w /\
      forall evs a b,
        trace (snd (addTasksJson host extensionPath w)) = (trace w ++ evs)%list ->
        ~ In (EvPipe a b) evs).
Proof.
  assert (Hstop : isRunning host = false ->
                  addTasksJson host extensionPath w =
                  (Rejected "OmniSharp is not running.", w)).
  { intros E. unfold addTasksJson. now rewrite E. }
  assert (Hnone : isRunning host = true ->
                  truthy (getSolutionPathOrFolder host) = false ->
                  addTasksJson host extensionPath w =
                  (Rejected "No solution or folder open.", w)).
  { intros E Hf. unfold addTasksJson. rewrite E. simpl.
    unfold truthy in Hf. destruct (getSolutionPathOrFolder host) as [s|];
      [|reflexivity].
    destruct (s =? ""); [reflexivity | discriminate Hf]. }
  assert (Hcases :
            (isRunning host = false) \/
            (isRunning host = true /\
             truthy (getSolutionPathOrFolder host) = false) \/
            (exists sp, isRunning host = true /\
                        getSolutionPathOrFolder host = Some sp /\ sp <> "")).
  { destruct (isRunning host); [|now left]. right.
    unfold truthy. destruct (getSolutionPathOrFolder host) as [s|]; [|now left].
    destruct (String.eqb_spec s ""); [now left | right; now exists s]. }
  split; [exact Hstop|]. split; [exact Hnone|]. split; [|split; [|split]].
  - intros sp Hr Hs Hne Ht Hm.
    rewrite (addTasksJson_running extensionPath w Hr Hs Hne). cbv zeta.
    now rewrite Ht, Hm.
  - intros sp Hr Hs Hne Ht Hm Hf Hd. split.
    + rewrite (addTasksJson_running extensionPath w Hr Hs Hne). cbv zeta.
      now rewrite Ht, Hm, Hf, Hd.
    + apply contains_intro.
  - intros evs fromPath toPath Htr Hin.
    destruct Hcases as [E | [[E Hf] | (sp & Hr & Hs & Hne)]].
    + rewrite (Hstop E) in Htr. simpl in Htr.
      apply app_eq_self in Htr. subst evs. destruct Hin.
    + rewrite (Hnone E Hf) in Htr. simpl in Htr.
      apply app_eq_self in Htr. subst evs. destruct Hin.
    + split; [exact Hr|]. exists sp.
      rewrite (addTasksJson_running extensionPath w Hr Hs Hne) in Htr |- *.
      cbv zeta in Htr |- *.
      destruct (on_disk w (tasks_json_path host sp)) eqn:Et.
      { simpl in Htr. apply app_inv_head in Htr. subst evs.
        destruct Hin as [Hin | []]. discriminate Hin. }
      destruct (on_disk w (template_path extensionPath)) eqn:Em;
        cbn [negb snd fst trace after] in Htr |- *.
      2:{ apply app_eq_self in Htr. subst evs. destruct Hin. }
      destruct (on_disk w (vscode_folder host sp)) eqn:Ef.
      { simpl in Htr. apply app_inv_head in Htr. subst evs.
        destruct Hin as [Hin | []]. injection Hin as <- <-.
        repeat (split; [now auto|]). exists []. split; [reflexivity|].
        intros a b []. }
      destruct (mkdir host (vscode_folder host sp)) eqn:Ed;
        simpl in Htr; apply app_inv_head in Htr; subst evs.
      * destruct Hin as [Hin | [Hin | []]]; [discriminate Hin|].
        injection Hin as <- <-.
        repeat (split; [now auto|]).
        exists [EvMkdir (vscode_folder host sp)]. split; [reflexivity|].
        intros a b [Hin | []]. discriminate Hin.
      * destruct Hin as [Hin | []]. discriminate Hin.
  - intros reason Hrej.
    destruct Hcases as [E | [[E Hf] | (sp & Hr & Hs & Hne)]].
    + rewrite (Hstop E). simpl. split; [reflexivity|].
      intros evs a b Htr. apply app_eq_self in Htr. subst evs. intros [].
    + rewrite (Hnone E Hf). simpl. split; [reflexivity|].
      intros evs a b Htr. apply app_eq_self in Htr. subst evs. intros [].
    + rewrite (addTasksJson_running extensionPath w Hr Hs Hne) in Hrej |- *.
      cbv zeta in Hrej |- *.
      destruct (on_disk w (tasks_json_path host sp)); [discriminate Hrej|].
      destruct (on_disk w (template_path extensionPath));
        cbn [negb snd fst trace files after] in Hrej |- *.
      2:{ split; [reflexivity|].
          intros evs a b Htr. apply app_eq_self in Htr. subst evs. intros []. }
      destruct (on_disk w (vscode_folder host sp)); [discriminate Hrej|].
      destruct (mkdir host (vscode_folder host sp)); [discriminate Hrej|].
      simpl. split; [reflexivity|].
      intros evs a b Htr. apply app_inv_head in Htr. subst evs.
      intros [Hin | []]. discriminate Hin.
Qed.

End Scaffolding.

(** ** The code on the sample inputs *)

(** Two projects named [Web] that both expose [web] get the same label:
    the catalog of [Sample.same_names] has a repeated label. *)
Lemma same_names_repeat_a_label :
  ~ NoDup (map label (dnx_commands (path := Posix.module) Sample.same_names)).
Proof.
  vm_compute. intros H.
  inversion H as [|x l Hnotin Hrest]; subst.
  apply Hnotin. right. left. reflexivity.
Qed.

Lemma catalog_sizes_and_order_witness :
  exists rest,
    trace (snd (dnxExecuteCommand (path := Posix.module) "linux"
                                  Sample.started Sample.fresh)) =
    EvRequestProjects
      :: EvShowQuickPick (dnx_commands (path := Posix.module) Sample.snapshot)
      :: rest.
Proof.
  destruct (catalog_sizes_and_order (path := Posix.module) "linux" Sample.started
                                    Sample.snapshot)
    as (_ & _ & _ & _ & _ & _ & H).
  destruct (H Sample.fresh eq_refl eq_refl) as (H1 & _).
  exact H1.
Defined.

Lemma labels_distinct_witness :
  Name Sample.web_a = Some "Web" /\ Name Sample.api = Some "Api" /\
  label (dnx_command (path := Posix.module) Sample.snapshot Sample.web_a "web") <>
  label (dnx_command (path := Posix.module) Sample.snapshot Sample.api "web").
Proof.
  split; [reflexivity|]. split; [reflexivity|].
  destruct (labels_distinct_when_display_names_differ
              (path := Posix.module) Sample.snapshot) as (_ & _ & _ & _ & H).
  apply (H Sample.web_a Sample.api "Web" "Api" "web");
    [reflexivity | reflexivity | discriminate | discriminate | discriminate].
Defined.

(** A runtime path that contains [-beta7], and names beta version 7,
    gets the leading dot because a folder on the way is called
    [tools-beta3]; a runtime of beta version 10 gets it as well. *)
Lemma beta7_runtime_gets_the_dot :
  contains (RuntimePath (Dnx Prerelease.under_beta3_folder)) "-beta7" /\
  beta_version (RuntimePath (Dnx Prerelease.under_beta3_folder)) = Some 7 /\
  names_beta_1_to_6 (RuntimePath (Dnx Prerelease.under_beta3_folder)) = false /\
  tc_args (dnx_call (path := Posix.module) "linux" Prerelease.under_beta3_folder
                    Sample.web_a "web") = ["."; "web"] /\
  tc_args (dnx_call (path := Posix.module) "linux" Prerelease.under_beta3_folder
                    Sample.web_a "web") <> ["web"] /\
  beta_version (RuntimePath (Dnx Prerelease.beta10)) = Some 10 /\
  names_beta_1_to_6 (RuntimePath (Dnx Prerelease.beta10)) = false /\
  tc_args (dnx_call (path := Posix.module) "linux" Prerelease.beta10
                    Sample.web_a "web") = ["."; "web"].
Proof.
  split.
  { exists "/opt/tools-beta3/runtimes/dnx-mono.1.0.0", "". reflexivity. }
  repeat split. discriminate.
Qed.

Lemma dnx_arguments_witness :
  tc_args (dnx_call (path := Posix.module) "linux" Sample.snapshot Sample.web_a "web")
  = ["web"].
Proof.
  destruct (dnx_arguments (path := Posix.module) "linux" Sample.started
                          Sample.snapshot Sample.web_a "web")
    as (_ & _ & _ & H & _).
  apply (H "/home/dev/.dnx/runtimes/dnx-mono.1.0.0" "").
  - reflexivity.
  - intros Hm. apply test_beta_1_6_iff in Hm. vm_compute in Hm. discriminate Hm.
  - intros Hm. apply test_beta_1_6_iff in Hm. vm_compute in Hm. discriminate Hm.
Defined.

Lemma executable_suffix_witness :
  tc_command (dnx_call (path := Posix.module) "win32" Sample.snapshot Sample.web_a "web")
  = "/home/dev/.dnx/runtimes/dnx-mono.1.0.0-beta7/bin/dnx.exe" /\
  tc_command (dnu_restore_call (path := Posix.module) "win32" Sample.snapshot Sample.web_a)
  = "/home/dev/.dnx/runtimes/dnx-mono.1.0.0-beta7/bin/dnu.cmd".
Proof.
  destruct (executable_suffix (path := Posix.module) "win32"
                              Sample.snapshot Sample.web_a "web") as (_ & H & _).
  exact (H eq_refl).
Defined.

Lemma dnxRestoreForProject_first_match_witness :
  dnxRestoreForProject (path := Posix.module) "linux" Sample.started
                       "/src/Api/project.json" Sample.fresh =
  (Rejected "spawn failed",
   after Sample.fresh
     [EvRequestProjects;
      EvRunInTerminal
        {| tc_command := "/home/dev/.dnx/runtimes/dnx-mono.1.0.0-beta7/bin/dnu";
           tc_args := ["restore"]; tc_cwd := "/src/Api"; tc_env := None |}]).
Proof.
  destruct (dnxRestoreForProject_first_match
              (path := Posix.module) "linux" Sample.started
              "/src/Api/project.json" (info := Sample.snapshot) Sample.fresh eq_refl)
    as (H & _).
  apply (H [Sample.web_a] Sample.api []); [reflexivity | reflexivity |].
  intros q [<- | []]. discriminate.
Defined.

Lemma addTasksJson_existing_file_witness :
  addTasksJson (path := Posix.module) Sample.started "/ext" Sample.scaffolded =
  (Resolved "/src/.vscode/tasks.json",
   after Sample.scaffolded
     [EvShowInformationMessage "/src/.vscode/tasks.json already exists."]).
Proof.
  destruct (addTasksJson_existing_file
              (path := Posix.module) Sample.started "/ext"
              (solutionPathOrFolder := "/src/app.sln") Sample.scaffolded
              eq_refl eq_refl ltac:(discriminate) eq_refl) as (H & _).
  exact H.
Defined.

Lemma addTasksJson_error_paths_witness :
  addTasksJson (path := Posix.module) Sample.started "/ext" Sample.fresh =
  (Rejected "Could not create /src/.vscode directory.",
   after Sample.fresh [EvMkdir "/src/.vscode"]).
Proof.
  destruct (addTasksJson_error_paths (path := Posix.module)
              Sample.started "/ext" Sample.fresh) as (_ & _ & _ & H & _).
  destruct (H "/src/app.sln" eq_refl eq_refl ltac:(discriminate)
              eq_refl eq_refl eq_refl eq_refl) as (H1 & _).
  exact H1.
Defined.

Lemma lastCommand_assigned_witness :
  let this := dnx_command (path := Posix.module) Sample.snapshot Sample.web_a "web" in
  fst (call_execute (path := Posix.module) "linux" Sample.started this Sample.fresh)
  = Rejected "spawn failed" /\
  lastCommand
    (snd (call_execute (path := Posix.module) "linux" Sample.started this Sample.fresh))
  = Some this.
Proof.
  intros this.
  destruct (lastCommand_assigned_only_by_dnx_execute
              (path := Posix.module) "linux" Sample.started)
    as (_ & _ & _ & _ & _ & _ & H & _).
  exact (H this Sample.snapshot Sample.web_a "web" Sample.fresh "spawn failed"
           eq_refl eq_refl).
Defined.

(** C4. With the server not running, [dnxRestoreForProject] still sends
    the request for the project snapshot and fails with the request's own
    rejection; [dnxRestoreForAll] and [dnxExecuteCommand] in the same state
    reject with the not-running message before any request. *)
Theorem dnxRestoreForProject_requests_when_not_running :
  isRunning Sample.stopped = false /\
  dnxRestoreForProject (path := Posix.module) "linux" Sample.stopped
                       "/src/Api/project.json" Sample.fresh =
    (Rejected "server has been stopped or not started",
     after Sample.fresh [EvRequestProjects]) /\
  dnxRestoreForAll (path := Posix.module) "linux" Sample.stopped Sample.fresh =
    (Rejected "OmniSharp server is not running.", Sample.fresh) /\
  dnxExecuteCommand (path := Posix.module) "linux" Sample.stopped Sample.fresh =
    (Rejected "OmniSharp server is not running.", Sample.fresh).
Proof. repeat split. Qed.

(** C5. With a started server whose solution path is the file
    [/src/app.sln], [dotnetRestore] runs [dotnet restore] with that file
    as working directory, not with its containing directory [/src]. *)
Theorem dotnetRestore_cwd_is_the_solution_file :
  getPathKind Sample.started "/src/app.sln" = File /\
  path_dirname (PathModule := Posix.module) "/src/app.sln" = "/src" /\
  dotnetRestore (path := Posix.module) Sample.started Sample.fresh =
    (Resolved tt,
     after Sample.fresh
       [EvRunInTerminal
          {| tc_command := "dotnet"; tc_args := ["restore"];
             tc_cwd := "/src/app.sln"; tc_env := None |}]).
Proof. repeat split. Qed.

(** * Further properties of the operations *)

(** ** The pickers *)

Section Pickers.

Context {path : PathModule}.
Variable platform : string.
Variable host : Host.

Lemma pick_and_execute_picked items i c w :
  showQuickPick host items = Some i -> nth_error items i = Some c ->
  pick_and_execute platform host items w =
  call_execute platform host c (after w [EvShowQuickPick items]).
Proof.
  intros Hp Hn. unfold pick_and_execute, andThen, window_showQuickPick.
  unfold andThen, emit, resolve. cbn [fst snd]. now rewrite Hp, Hn.
Qed.

Lemma pick_and_execute_dismissed items w :
  showQuickPick host items = None ->
  pick_and_execute platform host items w =
  (Resolved tt, after w [EvShowQuickPick items]).
Proof.
  intros Hp. unfold pick_and_execute, andThen, window_showQuickPick.
  unfold andThen, emit, resolve. cbn [fst snd]. now rewrite Hp.
Qed.

Lemma dnxExecuteCommand_picked info i project key w :
  isRunning host = true ->
  makeRequest_Projects host = Resolved info ->
  showQuickPick host (dnx_commands info) = Some i ->
  nth_error (dnx_commands info) i = Some (dnx_command info project key) ->
  dnxExecuteCommand platform host w =
  (runInTerminal host (dnx_call platform info project key),
   {| lastCommand := Some (dnx_command info project key); files := files w;
      trace := (trace w ++
                [EvRequestProjects; EvShowQuickPick (dnx_commands info);
                 EvAssignLastCommand (dnx_command info project key);
                 EvRunInTerminal (dnx_call platform info project key)])%list |}).
Proof.
  intros Hr Hf Hp Hn.
  rewrite (dnxExecuteCommand_fetched platform host w Hr Hf).
  rewrite (pick_and_execute_picked _ _ Hp Hn).
  rewrite (call_execute_dnx platform host (dnx_command info project key) _ eq_refl).
  simpl. now rewrite <- !app_assoc.
Qed.

(** X1. When the server runs, the snapshot arrives and the user picks
    entry [c] of the generic catalog, [dnxExecuteCommand] fetches, shows
    the catalog, assigns [c] to [lastCommand] and runs the call of the
    project and key [c] was built from, in the directory shown as the
    entry's description; it settles the way the terminal run does. *)
Theorem dnxExecuteCommand_runs_the_pick info i c w :
  isRunning host = true ->
  makeRequest_Projects host = Resolved info ->
  showQuickPick host (dnx_commands info) = Some i ->
  nth_error (dnx_commands info) i = Some c ->
  exists project key,
    In project (Projects (Dnx info)) /\
    In key (Object_keys (Commands project)) /\
    c = dnx_command info project key /\
    tc_cwd (dnx_call platform info project key) = description c /\
    dnxExecuteCommand platform host w =
    (runInTerminal host (dnx_call platform info project key),
     {| lastCommand := Some c; files := files w;
        trace := (trace w ++
                  [EvRequestProjects; EvShowQuickPick (dnx_commands info);
                   EvAssignLastCommand c;
                   EvRunInTerminal (dnx_call platform info project key)])%list |}).
Proof.
  intros Hr Hf Hp Hn.
  pose proof (nth_error_In _ _ Hn) as Hin.
  apply in_dnx_commands in Hin as (project & key & Hproj & Hkey & ->).
  exists project, key. repeat (split; [easy|]).
  now apply dnxExecuteCommand_picked with (i := i).
Qed.

(** X2. Dismissing the picker ends either picker operation successfully
    after the fetch and the picker: no terminal call, [lastCommand] and
    the disk as before. *)
Theorem pickers_dismissed info w :
  isRunning host = true ->
  makeRequest_Projects host = Resolved info ->
  (showQuickPick host (dnx_commands info) = None ->
   dnxExecuteCommand platform host w =
   (Resolved tt,
    after w [EvRequestProjects; EvShowQuickPick (dnx_commands info)])) /\
  (showQuickPick host (dnu_restore_commands info) = None ->
   dnxRestoreForAll platform host w =
   (Resolved tt,
    after w [EvRequestProjects; EvShowQuickPick (dnu_restore_commands info)])).
Proof.
  intros Hr Hf. split; intros Hp.
  - rewrite (dnxExecuteCommand_fetched platform host w Hr Hf).
    rewrite (pick_and_execute_dismissed _ _ Hp). now rewrite after_after.
  - rewrite (dnxRestoreForAll_fetched platform host w Hr Hf).
    rewrite (pick_and_execute_dismissed _ _ Hp). now rewrite after_after.
Qed.

(** X3. A rejected snapshot request is passed on unchanged: both pickers
    (with the server running) and [dnxRestoreForProject] reject with the
    request's reason right after the request, with no picker and no
    terminal call. *)
Theorem fetch_rejection_is_passed_on reason fileName w :
  makeRequest_Projects host = Rejected reason ->
  dnxRestoreForProject platform host fileName w =
    (Rejected reason, after w [EvRequestProjects]) /\
  (isRunning host = true ->
   dnxExecuteCommand platform host w =
     (Rejected reason, after w [EvRequestProjects]) /\
   dnxRestoreForAll platform host w =
     (Rejected reason, after w [EvRequestProjects])).
Proof.
  intros Hf. split; [|intros Hr; split].
  - unfold dnxRestoreForProject, server_makeRequest_Projects.
    unfold andThen at 1. unfold andThen, emit, settle. now rewrite Hf.
  - unfold dnxExecuteCommand, server_makeRequest_Projects. rewrite Hr.
    unfold andThen at 1. unfold andThen, emit, settle. now rewrite Hf.
  - unfold dnxRestoreForAll, server_makeRequest_Projects. rewrite Hr.
    unfold andThen at 1. unfold andThen, emit, settle. now rewrite Hf.
Qed.

(** X4. Picking the i-th entry of the restore catalog restores the i-th
    project of the snapshot: one [restore] call in that project's
    directory, which is the entry's description; [lastCommand] is not
    assigned. *)
Theorem dnxRestoreForAll_runs_the_pick info i project w :
  isRunning host = true ->
  makeRequest_Projects host = Resolved info ->
  showQuickPick host (dnu_restore_commands info) = Some i ->
  nth_error (Projects (Dnx info)) i = Some project ->
  nth_error (dnu_restore_commands info) i =
    Some (dnu_restore_command info project) /\
  tc_args (dnu_restore_call platform info project) = ["restore"] /\
  tc_cwd (dnu_restore_call platform info project) =
    description (dnu_restore_command info project) /\
  dnxRestoreForAll platform host w =
  (runInTerminal host (dnu_restore_call platform info project),
   after w [EvRequestProjects; EvShowQuickPick (dnu_restore_commands info);
            EvRunInTerminal (dnu_restore_call platform info project)]).
Proof.
  intros Hr Hf Hp Hn.
  assert (Hc : nth_error (dnu_restore_commands info) i =
               Some (dnu_restore_command info project)).
  { rewrite dnu_restore_commands_map. now apply map_nth_error. }
  repeat (split; [easy|]).
  rewrite (dnxRestoreForAll_fetched platform host w Hr Hf).
  rewrite (pick_and_execute_picked _ _ Hp Hc).
  rewrite (call_execute_dnu_restore platform host
             (dnu_restore_command info project) _ eq_refl).
  now rewrite !after_after.
Qed.

End Pickers.

(** ** Repeating the last command *)

Section Repeat.

Context {path : PathModule}.
Variable platform : string.
Variable host : Host.

(** X5. With a generic entry in [lastCommand], [dnxExecuteLastCommand]
    runs that entry's call again from the snapshot the entry was built
    from: no request to the server, no picker, whether or not the server
    is running; the slot keeps the entry. *)
Theorem dnxExecuteLastCommand_replays c info project key w :
  lastCommand w = Some c ->
  execute c = DnxExecute info project key ->
  dnxExecuteLastCommand platform host w =
  (Resolved tt,
   {| lastCommand := Some c; files := files w;
      trace := (trace w ++
                [EvAssignLastCommand c;
                 EvRunInTerminal (dnx_call platform info project key)])%list |}).
Proof.
  intros Hl He. unfold dnxExecuteLastCommand, detached. rewrite Hl.
  now rewrite (call_execute_dnx platform host c w He).
Qed.

(** X6. Execute, then repeat: after [dnxExecuteCommand] has run the
    user's pick, [dnxExecuteLastCommand] issues the very same terminal
    call again, also when the server has since stopped or reports other
    projects ([later] is the host at that time). *)
Theorem repeat_after_execute (later : Host) info i project key w :
  isRunning host = true ->
  makeRequest_Projects host = Resolved info ->
  showQuickPick host (dnx_commands info) = Some i ->
  nth_error (dnx_commands info) i = Some (dnx_command info project key) ->
  dnxExecuteLastCommand platform later
    (snd (dnxExecuteCommand platform host w)) =
  (Resolved tt,
   {| lastCommand := Some (dnx_command info project key); files := files w;
      trace := (trace w ++
                [EvRequestProjects; EvShowQuickPick (dnx_commands info);
                 EvAssignLastCommand (dnx_command info project key);
                 EvRunInTerminal (dnx_call platform info project key);
                 EvAssignLastCommand (dnx_command info project key);
                 EvRunInTerminal (dnx_call platform info project key)])%list |}).
Proof.
  intros Hr Hf Hp Hn.
  rewrite (dnxExecuteCommand_picked platform host w Hr Hf Hp Hn). cbn [snd].
  unfold dnxExecuteLastCommand, detached. cbn [lastCommand].
  rewrite (call_execute_dnx platform later (dnx_command info project key) _ eq_refl).
  simpl. now rewrite <- !app_assoc.
Qed.

(** X7. [dnxExecuteLastCommand] never reports a failure: it always ends
    with [undefined]. With an empty slot it does what [dnxExecuteCommand]
    does, and when that rejects because the server is not running the
    rejection is lost. *)
Theorem dnxExecuteLastCommand_falls_back w :
  fst (dnxExecuteLastCommand platform host w) = Resolved tt /\
  (lastCommand w = None ->
   snd (dnxExecuteLastCommand platform host w) =
   snd (dnxExecuteCommand platform host w)) /\
  (lastCommand w = None -> isRunning host = false ->
   dnxExecuteLastCommand platform host w = (Resolved tt, w) /\
   dnxExecuteCommand platform host w =
   (Rejected "OmniSharp server is not running.", w)).
Proof.
  split; [|split].
  - unfold dnxExecuteLastCommand. now destruct (lastCommand w).
  - intros Hl. unfold dnxExecuteLastCommand. now rewrite Hl.
  - intros Hl Hr. unfold dnxExecuteLastCommand, detached, dnxExecuteCommand.
    now rewrite Hl, Hr.
Qed.

Lemma dotnetRestore_over_resolving w :
  dotnetRestore_over (fun p => Resolved (getPathKind host p)) host w =
  dotnetRestore host w.
Proof. reflexivity. Qed.

(** X8. [dotnetRestore] rejects without any effect when the server is
    not running or no solution path or folder is known. Past these
    guards it returns [undefined] at once: when the path-kind promise is
    fulfilled, with either kind, it starts exactly one [dotnet restore]
    and a failing terminal run is not reported; when that promise
    rejects, nothing is run and the rejection is not reported either. *)
Theorem dotnetRestore_guards_and_result
        (getPathKindPromise : string -> Outcome PathKind) w :
  (isRunning host = false ->
   dotnetRestore_over getPathKindPromise host w =
   (Rejected "OmniSharp server is not running.", w)) /\
  (isRunning host = true -> truthy (getSolutionPathOrFolder host) = false ->
   dotnetRestore_over getPathKindPromise host w =
   (Rejected "No solution or folder open.", w)) /\
  (forall solutionPathOrFolder,
      isRunning host = true ->
      getSolutionPathOrFolder host = Some solutionPathOrFolder ->
      solutionPathOrFolder <> "" ->
      (forall kind,
          getPathKindPromise solutionPathOrFolder = Resolved kind ->
          dotnetRestore_over getPathKindPromise host w =
          (Resolved tt,
           after w [EvRunInTerminal
                      {| tc_command := "dotnet"; tc_args := ["restore"];
                         tc_cwd := solutionPathOrFolder; tc_env := None |}])) /\
      (forall reason,
          getPathKindPromise solutionPathOrFolder = Rejected reason ->
          dotnetRestore_over getPathKindPromise host w = (Resolved tt, w))).
Proof.
  split; [|split].
  - intros Hr. unfold dotnetRestore_over. now rewrite Hr.
  - intros Hr Ht. unfold dotnetRestore_over. rewrite Hr. cbn [negb].
    unfold truthy in Ht. destruct (getSolutionPathOrFolder host) as [s|];
      [|reflexivity].
    destruct (s =? ""); [reflexivity | discriminate Ht].
  - intros sp Hr Hs Hne. unfold dotnetRestore_over. rewrite Hr, Hs. cbn [negb].
    apply String.eqb_neq in Hne. rewrite Hne.
    unfold detached, andThen, settle. split.
    + intros kind Hk. rewrite Hk. now destruct kind.
    + intros reason Hk. now rewrite Hk.
Qed.

End Repeat.

(** ** More on the scaffolding *)

Section ScaffoldingSteps.

Context {path : PathModule}.
Variable host : Host.

(** X11. [addTasksJson] removes nothing from disk, and whatever it adds
    is the [.vscode] folder or the [tasks.json] in it; in particular the
    template and the solution are left alone. *)
Theorem addTasksJson_disk_frame extensionPath w q :
  (on_disk w q = true ->
   on_disk (snd (addTasksJson host extensionPath w)) q = true) /\
  (on_disk (snd (addTasksJson host extensionPath w)) q = true ->
   on_disk w q = true \/
   exists sp, getSolutionPathOrFolder host = Some sp /\
              (q = vscode_folder host sp \/ q = tasks_json_path host sp)).
Proof.
  assert (Hsame : files (snd (addTasksJson host extensionPath w)) = files w ->
                  (on_disk w q = true ->
                   on_disk (snd (addTasksJson host extensionPath w)) q = true) /\
                  (on_disk (snd (addTasksJson host extensionPath w)) q = true ->
                   on_disk w q = true \/
                   exists sp, getSolutionPathOrFolder host = Some sp /\
                              (q = vscode_folder host sp \/
                               q = tasks_json_path host sp))).
  { intros E. unfold on_disk. rewrite E. tauto. }
  destruct (isRunning host) eqn:Hr.
  2:{ apply Hsame. unfold addTasksJson. now rewrite Hr. }
  destruct (getSolutionPathOrFolder host) as [sp|] eqn:Hs.
  2:{ apply Hsame. unfold addTasksJson. now rewrite Hr, Hs. }
  destruct (String.eqb_spec sp "") as [-> | Hne].
  { apply Hsame. unfold addTasksJson. now rewrite Hr, Hs. }
  revert Hsame.
  rewrite (addTasksJson_running host extensionPath w Hr Hs Hne). cbv zeta.
  intros Hsame.
  destruct (on_disk w (tasks_json_path host sp)); [now apply Hsame|].
  destruct (on_disk w (template_path extensionPath)); cbn [negb];
    [|now apply Hsame].
  destruct (on_disk w (vscode_folder host sp)).
  { clear Hsame. unfold on_disk; cbn [snd files existsb]. split.
    - intros ->. apply orb_true_r.
    - intros H. apply orb_true_iff in H as [H | H]; [|now left].
      apply String.eqb_eq in H. right. exists sp. auto. }
  destruct (mkdir host (vscode_folder host sp)); [|now apply Hsame].
  clear Hsame. unfold on_disk; cbn [snd files existsb]. split.
  - intros ->. now rewrite !orb_true_r.
  - intros H. apply orb_true_iff in H as [H | H].
    + apply String.eqb_eq in H. right. exists sp. auto.
    + apply orb_true_iff in H as [H | H]; [|now left].
      apply String.eqb_eq in H. right. exists sp. auto.
Qed.

End ScaffoldingSteps.

(** ** When all labels of the generic catalog differ *)

Lemma contains_tail (c : ascii) (s sub : string) :
  contains s sub -> contains (String c s) sub.
Proof. intros (pre & post & ->). now exists (String c pre), post. Qed.

Lemma separator_first (k r1 r2 : string) :
  " - (" ++ r1 = k ++ " - (" ++ r2 -> ~ contains k " - (" -> k = "".
Proof.
  intros H Hk.
  destruct k as [|c0 k]; [reflexivity|]. simpl in H. injection H as <- H.
  destruct k as [|c1 k]; simpl in H; [discriminate H|]. injection H as <- H.
  destruct k as [|c2 k]; simpl in H; [discriminate H|]. injection H as <- H.
  destruct k as [|c3 k]; simpl in H; [discriminate H|]. injection H as <- H.
  exfalso. apply Hk. now exists "", k.
Qed.

Lemma key_before_separator (k1 k2 r1 r2 : string) :
  ~ contains k1 " - (" -> ~ contains k2 " - (" ->
  k1 ++ " - (" ++ r1 = k2 ++ " - (" ++ r2 -> k1 = k2.
Proof.
  revert k2. induction k1 as [|c1 k1 IH]; intros k2 H1 H2 E.
  - symmetry. now apply separator_first with (r1 := r1) (r2 := r2).
  - destruct k2 as [|c2 k2].
    + symmetry in E. now apply separator_first with (r1 := r2) (r2 := r1).
    + simpl in E. injection E as -> E. f_equal.
      apply IH; [| |exact E].
      * intros Hc. apply H1. now apply contains_tail.
      * intros Hc. apply H2. now apply contains_tail.
Qed.

Section CatalogLabels.

Context {path : PathModule}.
Variable info : WorkspaceInformationResponse.

Lemma dnx_label_inj (p1 p2 : DnxProject) (k1 k2 : string) :
  ~ contains k1 " - (" -> ~ contains k2 " - (" ->
  label (dnx_command info p1 k1) = label (dnx_command info p2 k2) ->
  k1 = k2 /\ display_name p1 = display_name p2.
Proof.
  intros H1 H2 E. unfold dnx_command in E; simpl in E.
  apply (append_inv_head "dnx ") in E.
  assert (Hk : k1 = k2) by (now apply key_before_separator in E).
  subst k2. split; [reflexivity|].
  apply append_inv_head in E. apply (append_inv_head " - (") in E.
  now apply append_inv_tail in E.
Qed.

Lemma dnx_label_key_inj (p : DnxProject) (k1 k2 : string) :
  label (dnx_command info p k1) = label (dnx_command info p k2) -> k1 = k2.
Proof.
  unfold dnx_command; simpl. intros E.
  apply (append_inv_head "dnx ") in E.
  now apply append_inv_tail in E.
Qed.

Lemma dnx_labels_of_project_unique (p : DnxProject) (keys : list string) :
  NoDup keys -> NoDup (map label (map (dnx_command info p) keys)).
Proof.
  induction 1 as [|k keys Hnotin Hnd IH]; simpl; constructor; [|exact IH].
  intros Hin. apply Hnotin.
  rewrite map_map in Hin. apply in_map_iff in Hin as (k' & E & Hk').
  apply dnx_label_key_inj in E. now subst k'.
Qed.

(** X12. All labels of the generic catalog differ when the projects'
    display names are pairwise different, no project lists a command key
    twice (as is the case for the keys of an object), and no command key
    contains the text [ - (] that separates key and name in a label. *)
Theorem dnx_labels_unique :
  NoDup (map display_name (Projects (Dnx info))) ->
  (forall p, In p (Projects (Dnx info)) ->
             NoDup (Object_keys (Commands p))) ->
  (forall p key, In p (Projects (Dnx info)) ->
                 In key (Object_keys (Commands p)) ->
                 ~ contains key " - (") ->
  NoDup (map label (dnx_commands info)).
Proof.
  rewrite dnx_commands_flat_map.
  induction (Projects (Dnx info)) as [|p ps IH]; simpl; intros Hnames Hkeys Hclean.
  - constructor.
  - inversion Hnames as [|? ? Hnotin Hrest]; subst.
    rewrite map_app. apply NoDup_app.
    + apply dnx_labels_of_project_unique. apply Hkeys. now left.
    + apply IH; [exact Hrest | |].
      * intros q Hq. apply Hkeys. now right.
      * intros q key Hq. apply Hclean. now right.
    + intros l Hl Hl'. apply Hnotin.
      rewrite map_map in Hl. apply in_map_iff in Hl as (k & <- & Hk).
      apply in_map_iff in Hl' as (c & Hc & Hin).
      apply in_flat_map in Hin as (q & Hq & Hin).
      apply in_map_iff in Hin as (k' & <- & Hk').
      apply dnx_label_inj in Hc as (_ & Hd).
      * rewrite <- Hd. now apply in_map.
      * apply (Hclean q); [now right | exact Hk'].
      * apply (Hclean p); [now left | exact Hk].
Qed.

End CatalogLabels.

(** ** Pick project and start *)

Section PickProject.

Variable host : Host.
Variable wb : Launch.Workbench.

Lemma mark_if_current_target currentPath tgt :
  Launch.target (Launch.mark_if_current currentPath tgt) = Launch.target tgt /\
  Launch.description (Launch.mark_if_current currentPath tgt) =
    Launch.description tgt /\
  Launch.label (Launch.mark_if_current currentPath tgt) =
    if Launch.fsPath (Launch.target tgt) =? currentPath
    then Launch.check_mark ++ Launch.label tgt else Launch.label tgt.
Proof.
  unfold Launch.mark_if_current.
  now destruct (Launch.fsPath (Launch.target tgt) =? currentPath).
Qed.

Lemma mark_current_targets currentPath targets :
  map Launch.target (Launch.mark_current currentPath targets) =
  map Launch.target targets.
Proof.
  unfold Launch.mark_current. destruct currentPath as [cp|]; [|reflexivity].
  destruct (cp =? ""); [reflexivity|].
  rewrite map_map. apply map_ext. intros tgt. apply mark_if_current_target.
Qed.

Lemma mark_current_length currentPath targets :
  List.length (Launch.mark_current currentPath targets) = List.length targets.
Proof.
  rewrite <- (length_map Launch.target), mark_current_targets.
  apply length_map.
Qed.

Lemma mark_current_nth currentPath targets i tgt :
  nth_error targets i = Some tgt ->
  exists shown,
    nth_error (Launch.mark_current currentPath targets) i = Some shown /\
    Launch.target shown = Launch.target tgt.
Proof.
  intros Hn.
  assert (Hm : nth_error (map Launch.target
                              (Launch.mark_current currentPath targets)) i
               = Some (Launch.target tgt)).
  { rewrite mark_current_targets. now apply map_nth_error. }
  rewrite nth_error_map in Hm.
  destruct (nth_error (Launch.mark_current currentPath targets) i) as [shown|];
    [|discriminate Hm].
  exists shown. split; [reflexivity|]. simpl in Hm. now injection Hm.
Qed.

(** X13. Marking the current project changes labels only: the list shown
    has the targets found, in order, with the same paths and
    descriptions; a label gets the check mark in front exactly when the
    target's path is the (non-empty) current path, and with no current
    path the list is shown as found. *)
Theorem mark_current_changes_labels_only currentPath targets :
  map Launch.target (Launch.mark_current currentPath targets) =
    map Launch.target targets /\
  map Launch.description (Launch.mark_current currentPath targets) =
    map Launch.description targets /\
  (truthy currentPath = false ->
   Launch.mark_current currentPath targets = targets) /\
  (forall cp, currentPath = Some cp -> cp <> "" ->
     map Launch.label (Launch.mark_current currentPath targets) =
     map (fun tgt =>
            if Launch.fsPath (Launch.target tgt) =? cp
            then Launch.check_mark ++ Launch.label tgt
            else Launch.label tgt) targets).
Proof.
  split; [apply mark_current_targets|]. split; [|split].
  - unfold Launch.mark_current. destruct currentPath as [cp|]; [|reflexivity].
    destruct (cp =? ""); [reflexivity|].
    rewrite map_map. apply map_ext. intros tgt. apply mark_if_current_target.
  - unfold truthy, Launch.mark_current. destruct currentPath as [cp|]; [|easy].
    destruct (cp =? ""); [easy | discriminate].
  - intros cp -> Hne. unfold Launch.mark_current.
    apply String.eqb_neq in Hne. rewrite Hne.
    rewrite map_map. apply map_ext. intros tgt. apply mark_if_current_target.
Qed.

(** X14. When the user picks the i-th item, the server is restarted on
    the path of the i-th target found, whatever the current path is and
    whether or not the item carries the check mark; the picker's
    placeholder counts the targets found, and the operation settles the
    way the restart does. *)
Theorem pickProjectAndStart_restarts_on_the_pick targets i tgt :
  Launch.findLaunchTargets wb = Resolved targets ->
  Launch.showQuickPick wb
    (Launch.mark_current (getSolutionPathOrFolder host) targets) = Some i ->
  nth_error targets i = Some tgt ->
  Launch.pickProjectAndStart host wb =
  (Launch.restart wb (Launch.fsPath (Launch.target tgt)),
   [Launch.EvFindLaunchTargets;
    Launch.EvShowQuickPick
      (Launch.mark_current (getSolutionPathOrFolder host) targets) true
      ("Select 1 of " ++ Launch.number_to_string (List.length targets)
                      ++ " projects");
    Launch.EvRestart (Launch.fsPath (Launch.target tgt))]).
Proof.
  intros Hf Hp Hn. unfold Launch.pickProjectAndStart. rewrite Hf. cbv zeta.
  rewrite Hp.
  destruct (mark_current_nth (getSolutionPathOrFolder host) _ _ Hn)
    as (shown & -> & Ht).
  unfold Launch.placeHolder. now rewrite Ht, mark_current_length.
Qed.

(** X15. A failed target search is passed on with no picker; a dismissed
    picker ends the operation successfully; in both cases the server is
    not restarted. A restart, when there is one, is the only one and goes
    to the path of one of the targets found. *)
Theorem pickProjectAndStart_restarts_only_on_a_target :
  (forall reason,
      Launch.findLaunchTargets wb = Rejected reason ->
      Launch.pickProjectAndStart host wb =
      (Rejected reason, [Launch.EvFindLaunchTargets])) /\
  (forall targets,
      Launch.findLaunchTargets wb = Resolved targets ->
      Launch.showQuickPick wb
        (Launch.mark_current (getSolutionPathOrFolder host) targets) = None ->
      Launch.pickProjectAndStart host wb =
      (Resolved tt,
       [Launch.EvFindLaunchTargets;
        Launch.EvShowQuickPick
          (Launch.mark_current (getSolutionPathOrFolder host) targets) true
          (Launch.placeHolder
             (Launch.mark_current (getSolutionPathOrFolder host) targets))])) /\
  (forall p,
      In (Launch.EvRestart p) (snd (Launch.pickProjectAndStart host wb)) ->
      exists targets tgt shown,
        Launch.findLaunchTargets wb = Resolved targets /\
        In tgt targets /\ p = Launch.fsPath (Launch.target tgt) /\
        snd (Launch.pickProjectAndStart host wb) =
        [Launch.EvFindLaunchTargets; shown; Launch.EvRestart p]).
Proof.
  split; [|split].
  - intros reason Hf. unfold Launch.pickProjectAndStart. now rewrite Hf.
  - intros targets Hf Hp. unfold Launch.pickProjectAndStart.
    rewrite Hf. cbv zeta. now rewrite Hp.
  - intros p. unfold Launch.pickProjectAndStart.
    destruct (Launch.findLaunchTargets wb) as [targets | reason]; cbv zeta.
    2:{ cbn [snd]. intros [H | []]. discriminate H. }
    set (marked := Launch.mark_current (getSolutionPathOrFolder host) targets).
    destruct (Launch.showQuickPick wb marked) as [i|].
    2:{ cbn [snd]. intros [H | [H | []]]; discriminate H. }
    destruct (nth_error marked i) as [shown|] eqn:Hn.
    2:{ cbn [snd]. intros [H | [H | []]]; discriminate H. }
    cbn [snd]. intros [H | [H | [H | []]]]; try discriminate H.
    injection H as <-.
    assert (Hin : In (Launch.target shown) (map Launch.target targets)).
    { rewrite <- (mark_current_targets (getSolutionPathOrFolder host)).
      apply in_map. now apply nth_error_In in Hn. }
    apply in_map_iff in Hin as (tgt & Ht & Hin).
    exists targets, tgt, (Launch.EvShowQuickPick marked true (Launch.placeHolder marked)).
    split; [reflexivity|]. split; [exact Hin|]. split; [now rewrite Ht|].
    reflexivity.
Qed.

End PickProject.

(** ** The two restore paths, empty catalogs, and the pattern's reach *)

Section RestorePaths.

Context {path : PathModule}.
Variable platform : string.
Variable host : Host.

(** X16. Restoring a project through the picker and through
    [dnxRestoreForProject] with its path come to the same terminal call
    and settle alike, provided no earlier project of the snapshot has
    the same path. *)
Theorem restore_paths_agree info before project rest w :
  isRunning host = true ->
  makeRequest_Projects host = Resolved info ->
  Projects (Dnx info) = (before ++ project :: rest)%list ->
  (forall q, In q before -> Path q <> Path project) ->
  showQuickPick host (dnu_restore_commands info) = Some (List.length before) ->
  fst (dnxRestoreForAll platform host w) =
    fst (dnxRestoreForProject platform host (Path project) w) /\
  trace (snd (dnxRestoreForAll platform host w)) =
    (trace w ++ [EvRequestProjects; EvShowQuickPick (dnu_restore_commands info);
                 EvRunInTerminal (dnu_restore_call platform info project)])%list /\
  trace (snd (dnxRestoreForProject platform host (Path project) w)) =
    (trace w ++ [EvRequestProjects;
                 EvRunInTerminal (dnu_restore_call platform info project)])%list.
Proof.
  intros Hr Hf Hs Hq Hp.
  assert (Hc : nth_error (dnu_restore_commands info) (List.length before) =
               Some (dnu_restore_command info project)).
  { rewrite dnu_restore_commands_map, Hs. apply map_nth_error.
    rewrite nth_error_app2 by lia. now rewrite Nat.sub_diag. }
  rewrite (dnxRestoreForAll_fetched platform host w Hr Hf).
  rewrite (pick_and_execute_picked platform host _ _ Hp Hc).
  rewrite (call_execute_dnu_restore platform host
             (dnu_restore_command info project) _ eq_refl).
  rewrite (dnxRestoreForProject_fetched platform host (Path project) w Hf), Hs.
  rewrite restore_first_match_found by easy.
  rewrite run_in_terminal_eq. cbn [fst snd after trace].
  rewrite <- !app_assoc. now repeat split.
Qed.

(** X17. With nothing to offer the pickers run nothing: when no project
    of the snapshot has a command the generic catalog is empty, when the
    snapshot has no project the restore catalog is empty, and the
    operation ends successfully after showing the empty picker. *)
Theorem empty_catalogs_run_nothing info w :
  isRunning host = true ->
  makeRequest_Projects host = Resolved info ->
  ((forall p, In p (Projects (Dnx info)) -> Commands p = []) ->
   dnx_commands info = [] /\
   dnxExecuteCommand platform host w =
   (Resolved tt, after w [EvRequestProjects; EvShowQuickPick []])) /\
  (Projects (Dnx info) = [] ->
   dnu_restore_commands info = [] /\
   dnxRestoreForAll platform host w =
   (Resolved tt, after w [EvRequestProjects; EvShowQuickPick []])).
Proof.
  intros Hr Hf.
  assert (Hempty : forall w0,
             pick_and_execute platform host [] w0 =
             (Resolved tt, after w0 [EvShowQuickPick []])).
  { intros w0. unfold pick_and_execute, andThen, window_showQuickPick.
    unfold andThen, emit, resolve. cbn [fst snd].
    destruct (showQuickPick host []) as [[|i]|]; reflexivity. }
  split.
  - intros Hnone.
    assert (E : dnx_commands info = []).
    { rewrite dnx_commands_flat_map.
      induction (Projects (Dnx info)) as [|p ps IH]; simpl; [reflexivity|].
      rewrite (Hnone p) by now left. simpl. apply IH.
      intros q Hq. apply Hnone. now right. }
    split; [exact E|].
    rewrite (dnxExecuteCommand_fetched platform host w Hr Hf), E, Hempty.
    now rewrite after_after.
  - intros Hnone.
    assert (E : dnu_restore_commands info = []).
    { now rewrite dnu_restore_commands_map, Hnone. }
    split; [exact E|].
    rewrite (dnxRestoreForAll_fetched platform host w Hr Hf), E, Hempty.
    now rewrite after_after.
Qed.

End RestorePaths.

(** X18. The pre-release pattern is searched in the whole runtime path:
    a path shorter than six characters never matches, and a path that
    matches keeps matching with anything put before or after it, so a
    folder name on the way to the runtime decides as well as the
    runtime's own name. *)
Theorem test_beta_1_6_reach (s : string) :
  (String.length s < 6 -> test_beta_1_6 s = false) /\
  (test_beta_1_6 s = true ->
   forall pre post, test_beta_1_6 (pre ++ s ++ post) = true).
Proof.
  split.
  - intros Hlen. destruct (test_beta_1_6 s) eqn:E; [|reflexivity].
    apply test_beta_1_6_iff in E as (a & d & b & -> & _).
    rewrite length_append in Hlen. simpl in Hlen. lia.
  - intros E pre post.
    apply test_beta_1_6_iff in E as (a & d & b & -> & Hd).
    apply test_beta_1_6_iff. exists (pre ++ a), d, (b ++ post).
    split; [|exact Hd].
    rewrite !append_assoc. simpl. reflexivity.
Qed.

(** ** The further properties on the sample inputs *)

Lemma dnxExecuteCommand_runs_the_pick_witness :
  exists project key,
    dnxExecuteCommand (path := Posix.module) "linux" Sample.started Sample.fresh =
    (runInTerminal Sample.started
       (dnx_call (path := Posix.module) "linux" Sample.snapshot project key),
     {| lastCommand :=
          Some (dnx_command (path := Posix.module) Sample.snapshot Sample.web_a "web");
        files := files Sample.fresh;
        trace := (trace Sample.fresh ++
                  [EvRequestProjects;
                   EvShowQuickPick (dnx_commands (path := Posix.module) Sample.snapshot);
                   EvAssignLastCommand
                     (dnx_command (path := Posix.module) Sample.snapshot Sample.web_a "web");
                   EvRunInTerminal
                     (dnx_call (path := Posix.module) "linux" Sample.snapshot
                               project key)])%list |}).
Proof.
  destruct (dnxExecuteCommand_runs_the_pick
              (path := Posix.module) "linux" Sample.started
              (info := Sample.snapshot) (i := 0)
              (c := dnx_command (path := Posix.module) Sample.snapshot Sample.web_a "web")
              Sample.fresh eq_refl eq_refl eq_refl eq_refl)
    as (project & key & _ & _ & _ & _ & H).
  exists project, key. exact H.
Defined.

Lemma pickers_dismissed_witness :
  dnxExecuteCommand (path := Posix.module) "linux" Scenario.dismissing Sample.fresh =
  (Resolved tt,
   after Sample.fresh
     [EvRequestProjects;
      EvShowQuickPick (dnx_commands (path := Posix.module) Sample.snapshot)]).
Proof.
  destruct (pickers_dismissed (path := Posix.module) "linux" Scenario.dismissing
              (info := Sample.snapshot) Sample.fresh eq_refl eq_refl) as (H & _).
  exact (H eq_refl).
Defined.

Lemma fetch_rejection_is_passed_on_witness :
  dnxRestoreForProject (path := Posix.module) "linux" Scenario.failing
                       "/src/Api/project.json" Sample.fresh =
  (Rejected "request timed out", after Sample.fresh [EvRequestProjects]).
Proof.
  destruct (fetch_rejection_is_passed_on
              (path := Posix.module) "linux" Scenario.failing
              (reason := "request timed out") "/src/Api/project.json"
              Sample.fresh eq_refl) as (H & _).
  exact H.
Defined.

Lemma dnxRestoreForAll_runs_the_pick_witness :
  dnxRestoreForAll (path := Posix.module) "linux" Sample.started Sample.fresh =
  (Rejected "spawn failed",
   after Sample.fresh
     [EvRequestProjects;
      EvShowQuickPick (dnu_restore_commands (path := Posix.module) Sample.snapshot);
      EvRunInTerminal
        (dnu_restore_call (path := Posix.module) "linux" Sample.snapshot Sample.web_a)]).
Proof.
  destruct (dnxRestoreForAll_runs_the_pick
              (path := Posix.module) "linux" Sample.started
              (info := Sample.snapshot) (i := 0) (project := Sample.web_a)
              Sample.fresh eq_refl eq_refl eq_refl eq_refl) as (_ & _ & _ & H).
  exact H.
Defined.

Lemma dnxExecuteLastCommand_replays_witness :
  isRunning Sample.stopped = false /\
  trace (snd (dnxExecuteLastCommand (path := Posix.module) "linux" Sample.stopped
                                    Scenario.executed)) =
  [EvAssignLastCommand
     (dnx_command (path := Posix.module) Sample.snapshot Sample.web_a "web");
   EvRunInTerminal
     (dnx_call (path := Posix.module) "linux" Sample.snapshot Sample.web_a "web")].
Proof.
  split; [reflexivity|].
  rewrite (dnxExecuteLastCommand_replays
             (path := Posix.module) "linux" Sample.stopped
             (c := dnx_command (path := Posix.module) Sample.snapshot Sample.web_a "web")
             (info := Sample.snapshot) (project := Sample.web_a) (key := "web")
             Scenario.executed eq_refl eq_refl).
  reflexivity.
Defined.

Lemma repeat_after_execute_witness :
  lastCommand
    (snd (dnxExecuteLastCommand (path := Posix.module) "linux" Sample.stopped
            (snd (dnxExecuteCommand (path := Posix.module) "linux" Sample.started
                                    Sample.fresh)))) =
  Some (dnx_command (path := Posix.module) Sample.snapshot Sample.web_a "web").
Proof.
  rewrite (repeat_after_execute
             (path := Posix.module) "linux" Sample.started Sample.stopped
             (info := Sample.snapshot) (i := 0)
             (project := Sample.web_a) (key := "web")
             Sample.fresh eq_refl eq_refl eq_refl eq_refl).
  reflexivity.
Defined.

Lemma dnxExecuteLastCommand_falls_back_witness :
  dnxExecuteLastCommand (path := Posix.module) "linux" Sample.stopped Sample.fresh =
  (Resolved tt, Sample.fresh).
Proof.
  destruct (dnxExecuteLastCommand_falls_back
              (path := Posix.module) "linux" Sample.stopped Sample.fresh)
    as (_ & _ & H).
  destruct (H eq_refl eq_refl) as (H1 & _). exact H1.
Defined.

Lemma dotnetRestore_guards_and_result_witness :
  dotnetRestore_over (path := Posix.module) (fun _ => Rejected "ENOENT")
                     Sample.started Sample.fresh =
  (Resolved tt, Sample.fresh).
Proof.
  destruct (dotnetRestore_guards_and_result
              (path := Posix.module) Sample.started
              (fun _ => Rejected "ENOENT") Sample.fresh) as (_ & _ & H).
  destruct (H "/src/app.sln" eq_refl eq_refl ltac:(discriminate)) as (_ & H1).
  exact (H1 "ENOENT" eq_refl).
Defined.

Lemma addTasksJson_disk_frame_witness :
  on_disk (snd (addTasksJson (path := Posix.module) Scenario.dismissing "/ext"
                             Sample.fresh))
          "/ext/template-tasks.json" = true.
Proof.
  destruct (addTasksJson_disk_frame
              (path := Posix.module) Scenario.dismissing "/ext" Sample.fresh
              "/ext/template-tasks.json") as (H & _).
  exact (H eq_refl).
Defined.

Ltac no_occurrence :=
  let pre := fresh "pre" in
  let post := fresh "post" in
  let E := fresh "E" in
  intros (pre & post & E);
  repeat (destruct pre as [|? pre]; simpl in E;
          [discriminate E | injection E as _ E]);
  destruct pre; discriminate E.

Lemma dnx_labels_unique_witness :
  NoDup (map label (dnx_commands (path := Posix.module) Sample.snapshot)).
Proof.
  apply (dnx_labels_unique (path := Posix.module) Sample.snapshot).
  - vm_compute. repeat constructor; simpl; intuition discriminate.
  - intros p [<- | [<- | []]]; vm_compute;
      repeat constructor; simpl; intuition discriminate.
  - intros p key [<- | [<- | []]]; simpl;
      intros Hk; repeat (destruct Hk as [<- | Hk]; [no_occurrence|]);
      destruct Hk.
Defined.

Lemma mark_current_changes_labels_only_witness :
  map Launch.label
      (Launch.mark_current (Some "/src/app.sln")
                           [Launch.app_target; Launch.tools_target]) =
  [Launch.check_mark ++ "app.sln"; "tools"].
Proof.
  destruct (mark_current_changes_labels_only
              (Some "/src/app.sln") [Launch.app_target; Launch.tools_target])
    as (_ & _ & _ & H).
  rewrite (H "/src/app.sln" eq_refl); [reflexivity | discriminate].
Defined.

Lemma pickProjectAndStart_restarts_on_the_pick_witness :
  snd (Launch.pickProjectAndStart Sample.started Launch.workbench) =
  [Launch.EvFindLaunchTargets;
   Launch.EvShowQuickPick
     (Launch.mark_current (Some "/src/app.sln")
                          [Launch.app_target; Launch.tools_target])
     true "Select 1 of 2 projects";
   Launch.EvRestart "/src/tools"].
Proof.
  rewrite (pickProjectAndStart_restarts_on_the_pick
             Sample.started Launch.workbench
             (targets := [Launch.app_target; Launch.tools_target]) (i := 1)
             (tgt := Launch.tools_target) eq_refl eq_refl eq_refl).
  reflexivity.
Defined.

Lemma pickProjectAndStart_restarts_only_on_a_target_witness :
  fst (Launch.pickProjectAndStart Sample.started Launch.dismissing) = Resolved tt.
Proof.
  destruct (pickProjectAndStart_restarts_only_on_a_target
              Sample.started Launch.dismissing) as (_ & H & _).
  rewrite (H [Launch.app_target; Launch.tools_target] eq_refl eq_refl).
  reflexivity.
Defined.

Lemma restore_paths_agree_witness :
  fst (dnxRestoreForAll (path := Posix.module) "linux" Sample.started Sample.fresh) =
  fst (dnxRestoreForProject (path := Posix.module) "linux" Sample.started
                            "/src/a/Web/project.json" Sample.fresh).
Proof.
  destruct (restore_paths_agree
              (path := Posix.module) "linux" Sample.started
              (info := Sample.snapshot) [] Sample.web_a [Sample.api]
              Sample.fresh eq_refl eq_refl eq_refl
              (fun q (H : In q []) => match H with end) eq_refl) as (H & _).
  exact H.
Defined.

Lemma empty_catalogs_run_nothing_witness :
  dnxRestoreForAll (path := Posix.module) "linux" Scenario.idle Sample.fresh =
  (Resolved tt, after Sample.fresh [EvRequestProjects; EvShowQuickPick []]).
Proof.
  destruct (empty_catalogs_run_nothing
              (path := Posix.module) "linux" Scenario.idle
              (info := Scenario.no_projects) Sample.fresh eq_refl eq_refl)
    as (_ & H).
  destruct (H eq_refl) as (_ & H1). exact H1.
Defined.

Lemma test_beta_1_6_reach_witness :
  test_beta_1_6 ("/opt/tools" ++ "-beta3" ++ "/runtimes/dnx-mono.1.0.0-beta7") = true.
Proof.
  destruct (test_beta_1_6_reach "-beta3") as (_ & H).
  exact (H eq_refl "/opt/tools" "/runtimes/dnx-mono.1.0.0-beta7").
Defined.
